(** * The code-execution harness and the submission check of the assignment solver

    A shallow embedding of

    - [AssignmentSolver.execute_code]             (assignment_solver.py),
    - [AssignmentSolver.execute_code_and_capture] (submit.py),
    - [AssignmentSolver.check_submission_status] and the gate at the head of
      the per-assignment loop of [detect]          (submit.py),

    together with the properties the specification states about them.

    Python code that talks to the operating system is written in a small
    monad: a computation reads the current set of paths on disk, returns a
    value or raises an exception, and leaves behind a new disk and the list
    of external calls it made.  What the operating system, the child
    processes and the remote service answer is not decided by the program;
    it is read from a record [OS] of answers, so that every theorem is about
    every possible behaviour of the outside world. *)

From stdpp Require Import gmap strings list.
From Stdlib Require Import ZArith Ascii.

Local Open Scope Z_scope.

(** ** Python strings

    A Python [str] is modelled as a Rocq [string].  [lower] and [upper] act
    on the ASCII letters and leave every other character alone; the names
    the code compares against are all ASCII. *)

Module Py.

Definition lower_char (c : ascii) : ascii :=
  let n := nat_of_ascii c in
  if ((65 <=? n)%nat && (n <=? 90)%nat)%bool then ascii_of_nat (n + 32) else c.

Definition upper_char (c : ascii) : ascii :=
  let n := nat_of_ascii c in
  if ((97 <=? n)%nat && (n <=? 122)%nat)%bool then ascii_of_nat (n - 32) else c.

Fixpoint map_chars (f : ascii -> ascii) (s : string) : string :=
  match s with
  | EmptyString => EmptyString
  | String c s' => String (f c) (map_chars f s')
  end.

(** [s.lower()] and [s.upper()] *)
Definition lower : string -> string := map_chars lower_char.
Definition upper : string -> string := map_chars upper_char.

(** [s[:n]] *)
Fixpoint take (n : nat) (s : string) : string :=
  match n, s with
  | S n', String c s' => String c (take n' s')
  | _, _ => EmptyString
  end.

(** [s.startswith(p)] and [s.endswith(p)] *)
Definition startswith (s p : string) : bool := String.prefix p s.

Definition endswith (s p : string) : bool :=
  String.prefix (String.rev p) (String.rev s).

(** [s.replace(old, new)] for a non-empty [old]: occurrences are replaced
    from left to right and do not overlap.  [skip] counts the characters of
    an occurrence that are still to be dropped. *)
Fixpoint replace_from (skip : nat) (old new s : string) : string :=
  match s with
  | EmptyString => EmptyString
  | String c s' =>
      match skip with
      | S k => replace_from k old new s'
      | O =>
          if String.prefix old s
          then new +:+ replace_from (String.length old - 1) old new s'
          else String c (replace_from O old new s')
      end
  end.

Definition replace (s old new : string) : string := replace_from O old new s.

(** [os.path.join(a, b)] on POSIX *)
Definition path_join (a b : string) : string :=
  if startswith b "/" then b
  else if (String.eqb a "" || endswith a "/")%bool then a +:+ b
  else a +:+ "/" +:+ b.

(** [not x] for an [Optional[str]]: [None] and the empty string are falsy. *)
Definition falsy (x : option string) : bool :=
  match x with
  | None => true
  | Some s => String.eqb s ""
  end.

End Py.

(** ** Exceptions

    Every exception the modelled calls raise is a subclass of [Exception].
    [TimeoutExpired] is [subprocess.TimeoutExpired]; [FileNotFoundError] is
    what [subprocess.run] raises when the binary of the tool chain cannot be
    started; [HttpError] is [googleapiclient.errors.HttpError]. *)

Inductive exn : Type :=
| TimeoutExpired (msg : string)
| FileNotFoundError (msg : string)
| HttpError (msg : string)
| OtherException (msg : string).

(** [str(e)] *)
Definition str (e : exn) : string :=
  match e with
  | TimeoutExpired m | FileNotFoundError m | HttpError m | OtherException m => m
  end.

(** ** The outside world *)

(** [subprocess.CompletedProcess] with [capture_output=True, text=True] *)
Record completed : Type := Completed {
  returncode : Z;
  stdout : string;
  stderr : string
}.

(** How a call of [subprocess.run] ends, and what the child process has
    done to the disk by then: the paths it has removed and the paths it
    has left behind.  The child runs generated code, so either set may hold
    any path, the files of the harness included. *)
Inductive ending : Type :=
| Exited (result : completed)
| Raised (e : exn).

Record proc : Type := Proc {
  proc_end : ending;
  proc_made : gset string;
  proc_gone : gset string
}.

(** A JSON object with string values, as the remote service returns it. *)
Abbreviation dict := (gmap string string).

Record OS : Type := {
  (** [tempfile.mkdtemp()]: the new directory, or the error *)
  mkdtemp_ans : string + exn;
  (** [tempfile.NamedTemporaryFile(suffix=ext, delete=False)]: the name
      without its suffix, or the error *)
  mkstemp_ans : string + exn;
  (** [open(path, 'w')] *)
  open_ans : string -> option exn;
  (** [f.write(code)] on the file at [path] *)
  write_ans : string -> option exn;
  (** [subprocess.run(argv, capture_output=True, text=True, timeout=t)] *)
  run_ans : list string -> Z -> proc;
  (** [re.search(r'public\s+class\s+(\w+)', code)], group 1 *)
  re_public_class : string -> option string;
  (** [Path(p).stem] and [str(Path(p).parent)] *)
  path_stem : string -> string;
  path_parent : string -> string;
  (** the PNG that matplotlib renders for a text, or the error *)
  savefig_ans : string -> list Byte.byte + exn;
  (** [studentSubmissions().list(courseId, courseWorkId, userId='me')
      .execute()]: the value under the key ['studentSubmissions'] of the
      response, if the key is there, or the error *)
  list_ans : string -> string -> option (list dict) + exn
}.

(** ** The monad of effectful Python code *)

Inductive event : Type :=
| Wrote (path content : string)
| Spawn (argv : list string) (timeout : Z).

Record outcome (A : Type) : Type := Outcome {
  value : A + exn;
  disk_after : gset string;
  events : list event
}.
Arguments Outcome {A} _ _ _.
Arguments value {A} _.
Arguments disk_after {A} _.
Arguments events {A} _.

Definition M (A : Type) : Type := gset string -> outcome A.

Definition ret {A} (a : A) : M A := fun d => Outcome (inl a) d [].

Definition raise {A} (e : exn) : M A := fun d => Outcome (inr e) d [].

Definition bind {A B} (m : M A) (k : A -> M B) : M B := fun d =>
  match m d with
  | Outcome (inl a) d1 ev1 =>
      match k a d1 with
      | Outcome v d2 ev2 => Outcome v d2 (ev1 ++ ev2)
      end
  | Outcome (inr e) d1 ev1 => Outcome (inr e) d1 ev1
  end.

(** [try: m  except Exception as e: h e] *)
Definition try_except {A} (m : M A) (h : exn -> M A) : M A := fun d =>
  match m d with
  | Outcome (inl a) d1 ev1 => Outcome (inl a) d1 ev1
  | Outcome (inr e) d1 ev1 =>
      match h e d1 with
      | Outcome v d2 ev2 => Outcome v d2 (ev1 ++ ev2)
      end
  end.

(** [try: m  finally: f] : [f] runs on every way out of [m]; an exception of
    [f] replaces the result of [m]. *)
Definition try_finally {A} (m : M A) (f : M unit) : M A := fun d =>
  match m d with
  | Outcome v d1 ev1 =>
      match f d1 with
      | Outcome (inl _) d2 ev2 => Outcome v d2 (ev1 ++ ev2)
      | Outcome (inr e) d2 ev2 => Outcome (inr e) d2 (ev1 ++ ev2)
      end
  end.

Declare Scope py_scope.
Delimit Scope py_scope with py.
Notation "x <- m ;; k" := (bind m (fun x => k))
  (at level 100, m at next level, right associativity) : py_scope.
Notation "m ;; k" := (bind m (fun _ => k))
  (at level 100, right associativity) : py_scope.
Local Open Scope py_scope.

(** The commands a run has spawned, each with its timeout, in order. *)
Definition spawns (l : list event) : list (list string * Z) :=
  omap (fun ev => match ev with
                  | Spawn argv t => Some (argv, t)
                  | Wrote _ _ => None
                  end) l.

(** ** Operating-system primitives *)

(** [q] is the directory [p] or lies below it. *)
Definition under (p q : string) : bool :=
  (String.eqb q p || String.prefix (p +:+ "/") q)%bool.

Section Primitives.
Variable os : OS.

Definition mkdtemp : M string := fun d =>
  match mkdtemp_ans os with
  | inl p => Outcome (inl p) (d ∪ {[p]}) []
  | inr e => Outcome (inr e) d []
  end.

(** [with open(path, 'w') as f: f.write(content)] *)
Definition write_file (path content : string) : M unit := fun d =>
  match open_ans os path with
  | Some e => Outcome (inr e) d []
  | None =>
      match write_ans os path with
      | Some e => Outcome (inr e) (d ∪ {[path]}) []
      | None => Outcome (inl tt) (d ∪ {[path]}) [Wrote path content]
      end
  end.

(** [with tempfile.NamedTemporaryFile(mode='w', suffix=ext, delete=False)
    as f: f.write(content); temp_file = f.name] *)
Definition named_temporary_file (ext content : string) : M string := fun d =>
  match mkstemp_ans os with
  | inr e => Outcome (inr e) d []
  | inl stem =>
      let path := stem +:+ ext in
      match write_ans os path with
      | Some e => Outcome (inr e) (d ∪ {[path]}) []
      | None => Outcome (inl path) (d ∪ {[path]}) [Wrote path content]
      end
  end.

Definition subprocess_run (argv : list string) (timeout : Z) : M completed :=
  fun d =>
  let p := run_ans os argv timeout in
  Outcome (match proc_end p with Exited r => inl r | Raised e => inr e end)
          ((d ∖ proc_gone p) ∪ proc_made p) [Spawn argv timeout].

(** [shutil.rmtree(p, ignore_errors=True)]: never raises; the tree rooted at
    [p] is gone afterwards. *)
Definition rmtree (p : string) : M unit := fun d =>
  Outcome (inl tt) (filter (fun q => under p q = false) d) [].

(** [os.path.exists(p)] *)
Definition path_exists (p : string) : M bool := fun d =>
  Outcome (inl (bool_decide (p ∈ d))) d [].

(** [os.unlink(p)] *)
Definition unlink (p : string) : M unit := fun d =>
  if bool_decide (p ∈ d) then Outcome (inl tt) (d ∖ {[p]}) []
  else Outcome (inr (FileNotFoundError
         ("[Errno 2] No such file or directory: '" +:+ p +:+ "'"))) d [].

End Primitives.

(** ** assignment_solver.py: [AssignmentSolver.execute_code] *)

(** The line feed of the Python string literals. *)
Definition nl : string := String (ascii_of_nat 10) EmptyString.

(** [Tuple[str, str, bool]]: stdout, stderr, success *)
Definition triple : Type := string * string * bool.

Section ExecuteCode.
Variable os : OS.

(** The common tail of the three language branches:
    [success = result.returncode == 0;
     return result.stdout, result.stderr, success] *)
Definition finish (result : completed) : M triple :=
  ret (stdout result, stderr result, returncode result =? 0).

(** The body of the [try] block. *)
Definition execute_code_try (temp_dir code language : string) : M triple :=
  if String.eqb (Py.lower language) "python" then
    let file_path := Py.path_join temp_dir "solution.py" in
    (write_file os file_path code ;;
     result <- subprocess_run os ["python3"; file_path] 10 ;;
     finish result)
  else if String.eqb (Py.lower language) "java" then
    let class_name := default "Solution" (re_public_class os code) in
    let file_path := Py.path_join temp_dir (class_name +:+ ".java") in
    (write_file os file_path code ;;
     compile_result <- subprocess_run os ["javac"; file_path] 10 ;;
     if negb (returncode compile_result =? 0)
     then ret ("", stderr compile_result, false)
     else (result <- subprocess_run os ["java"; "-cp"; temp_dir; class_name] 10 ;;
           finish result))
  else if (String.eqb (Py.lower language) "c++"
           || String.eqb (Py.lower language) "cpp")%bool then
    let file_path := Py.path_join temp_dir "solution.cpp" in
    let output_path := Py.path_join temp_dir "solution" in
    (write_file os file_path code ;;
     compile_result <- subprocess_run os ["g++"; file_path; "-o"; output_path] 10 ;;
     if negb (returncode compile_result =? 0)
     then ret ("", stderr compile_result, false)
     else (result <- subprocess_run os [output_path] 10 ;;
           finish result))
  else ret ("", "Unsupported language: " +:+ language, false).

(** [except subprocess.TimeoutExpired: ...] and [except Exception as e: ...] *)
Definition execute_code_except (e : exn) : M triple :=
  match e with
  | TimeoutExpired _ => ret ("", "Execution timeout", false)
  | _ => ret ("", str e, false)
  end.

Definition execute_code (code language : string) : M triple :=
  temp_dir <- mkdtemp os ;;
  try_finally
    (try_except (execute_code_try temp_dir code language) execute_code_except)
    (rmtree temp_dir).

End ExecuteCode.

(** ** submit.py: [AssignmentSolver.execute_code_and_capture] *)

Definition ext_map : gmap string string :=
  {[ "python" := ".py"; "java" := ".java"; "c++" := ".cpp"; "cpp" := ".cpp";
     "c" := ".c" ]}.

Section ExecuteCodeAndCapture.
Variable os : OS.

(** The [if]/[elif] chain that runs the code; a language that matches no
    branch leaves [output_text] at its initial value, the empty string. *)
Definition capture_run (temp_file exe_file language : string) : M string :=
  if String.eqb (Py.lower language) "python" then
    (result <- subprocess_run os ["python3"; temp_file] 5 ;;
     ret (stdout result +:+ stderr result))
  else if String.eqb (Py.lower language) "java" then
    (compile_result <- subprocess_run os ["javac"; temp_file] 10 ;;
     if returncode compile_result =? 0
     then (let class_name := path_stem os temp_file in
           result <- subprocess_run os
                       ["java"; "-cp"; path_parent os temp_file; class_name] 5 ;;
           ret (stdout result +:+ stderr result))
     else ret ("Compilation Error:" +:+ nl +:+ stderr compile_result))
  else if (String.eqb (Py.lower language) "c++"
           || String.eqb (Py.lower language) "cpp")%bool then
    (compile_result <- subprocess_run os ["g++"; temp_file; "-o"; exe_file] 10 ;;
     if returncode compile_result =? 0
     then (result <- subprocess_run os [exe_file] 5 ;;
           ret (stdout result +:+ stderr result))
     else ret ("Compilation Error:" +:+ nl +:+ stderr compile_result))
  else ret "".

(** The clean-up at the end of the [try] block. *)
Definition capture_cleanup (temp_file exe_file language : string) : M unit :=
  unlink temp_file ;;
  if (String.eqb (Py.lower language) "c++"
      || String.eqb (Py.lower language) "cpp")%bool
  then (there <- path_exists exe_file ;;
        if there then unlink exe_file else ret tt)
  else ret tt.

(** The body of the [try] block; [exe_file] is only used by the C++ branch
    and under the same test by the clean-up. *)
Definition capture_try (code language : string) : M string :=
  let ext := default ".txt" (ext_map !! Py.lower language) in
  temp_file <- named_temporary_file os ext code ;;
  let exe_file := Py.replace temp_file ".cpp" ".out" in
  output_text <- capture_run temp_file exe_file language ;;
  capture_cleanup temp_file exe_file language ;;
  ret output_text.

Definition capture_except (e : exn) : M string :=
  match e with
  | TimeoutExpired _ => ret "Execution timeout (>5 seconds)"
  | _ => ret ("Execution error: " +:+ str e)
  end.

(** [_create_output_screenshot]: the text handed to matplotlib is the
    upper-cased language, a heading and the first 1000 characters of the
    output. *)
Definition create_output_screenshot (output_text language : string)
  : M (list Byte.byte) :=
  let wrapped_text := Py.take 1000 output_text in
  match savefig_ans os
          (Py.upper language +:+ " Output:" +:+ nl +:+ nl +:+ wrapped_text) with
  | inl png => ret png
  | inr e => raise e
  end.

Definition execute_code_and_capture
    (code language : string) (test_cases : list dict)
  : M (string * list Byte.byte) :=
  output_text <- try_except (capture_try code language) capture_except ;;
  screenshot_bytes <- create_output_screenshot output_text language ;;
  ret (output_text, screenshot_bytes).

End ExecuteCodeAndCapture.

(** ** submit.py: [check_submission_status] and the gate of [detect] *)

Section Submission.
Variable os : OS.

Definition list_submissions (course_id coursework_id : string)
  : M (option (list dict)) := fun d =>
  Outcome (list_ans os course_id coursework_id) d [].

Definition check_submission_status (course_id coursework_id : string)
  : M (bool * option string) :=
  try_except
    (submissions <- list_submissions course_id coursework_id ;;
     let student_submissions := default [] submissions in
     match student_submissions with
     | submission :: _ =>
         let state := default "" (submission !! "state") in
         let submission_id := default "" (submission !! "id") in
         let is_submitted :=
           (String.eqb state "TURNED_IN" || String.eqb state "RETURNED")%bool in
         ret (is_submitted, Some submission_id)
     | [] => ret (false, None)
     end)
    (fun e => match e with
              | HttpError _ => ret (false, None)
              | _ => raise e
              end).

(** What the loop of [detect] does with one assignment after the check:
    the two [continue]s, or the rest of the loop body (extract, solve,
    build the PDF, submit) with the submission id in hand. *)
Inductive gate : Type :=
| SkipSubmitted
| SkipNoSubmissionId
| Proceed (submission_id : string).

Definition detect_gate (skip_submitted : bool) (course_id assignment_id : string)
  : M gate :=
  r <- check_submission_status course_id assignment_id ;;
  let '(is_submitted, submission_id) := r in
  if (is_submitted && skip_submitted)%bool then ret SkipSubmitted
  else if Py.falsy submission_id then ret SkipNoSubmissionId
  else ret (Proceed (default "" submission_id)).

End Submission.

(** ** Notions used in the statements *)

(** The languages that [execute_code] and [execute_code_and_capture] have a
    branch for, as the tests of their [if]/[elif] chains read. *)
Definition is_python (language : string) : bool :=
  String.eqb (Py.lower language) "python".

Definition is_java (language : string) : bool :=
  String.eqb (Py.lower language) "java".

Definition is_cpp (language : string) : bool :=
  (String.eqb (Py.lower language) "c++" || String.eqb (Py.lower language) "cpp")%bool.

Definition is_compiled (language : string) : bool :=
  (is_java language || is_cpp language)%bool.

Definition supported (language : string) : bool :=
  (is_python language || is_compiled language)%bool.


(** The process spawned for [call] ran to completion with result [r]. *)
Definition exited_with (os : OS) (call : list string * Z) (r : completed) : Prop :=
  proc_end (run_ans os call.1 call.2) = Exited r.

(** The process spawned for [call] made [subprocess.run] raise [e]. *)
Definition raised_with (os : OS) (call : list string * Z) (e : exn) : Prop :=
  proc_end (run_ans os call.1 call.2) = Raised e.

(** The process spawned for [call] ran to completion with exit code 0. *)
Definition exited_zero (os : OS) (call : list string * Z) : Prop :=
  exists r, exited_with os call r /\ returncode r = 0.

(** The renderer of the screenshot returns a picture for every text. *)
Definition renders (os : OS) : Prop :=
  forall text, exists png, savefig_ans os text = inl png.


(** ** The ways through [execute_code]

    [code_path os language calls r]: the commands [calls] were spawned, in
    this order, and the triple [r] is returned. *)

(** What the two [except] clauses return for an exception. *)
Definition handled (e : exn) : triple :=
  match e with
  | TimeoutExpired _ => ("", "Execution timeout", false)
  | _ => ("", str e, false)
  end.

Inductive code_path (os : OS) (language : string)
  : list (list string * Z) -> triple -> Prop :=
| path_unsupported :
    supported language = false ->
    code_path os language [] ("", "Unsupported language: " +:+ language, false)
| path_not_written e :
    supported language = true ->
    code_path os language [] (handled e)
| path_first_raised c e :
    supported language = true ->
    raised_with os c e ->
    code_path os language [c] (handled e)
| path_interpreted c r :
    is_python language = true ->
    exited_with os c r ->
    code_path os language [c] (stdout r, stderr r, returncode r =? 0)
| path_compile_failed c r :
    is_compiled language = true ->
    exited_with os c r ->
    returncode r <> 0 ->
    code_path os language [c] ("", stderr r, false)
| path_run_raised c r0 c' e :
    is_compiled language = true ->
    exited_with os c r0 ->
    returncode r0 = 0 ->
    raised_with os c' e ->
    code_path os language [c; c'] (handled e)
| path_compiled c r0 c' r :
    is_compiled language = true ->
    exited_with os c r0 ->
    returncode r0 = 0 ->
    exited_with os c' r ->
    code_path os language [c; c'] (stdout r, stderr r, returncode r =? 0).

(** ** The ways through [execute_code_and_capture] *)

(** What the two [except] clauses store in [output_text]. *)
Definition reported (e : exn) : string :=
  match e with
  | TimeoutExpired _ => "Execution timeout (>5 seconds)"
  | _ => "Execution error: " +:+ str e
  end.

(** The text that the [try] statement leaves in [output_text], given how
    its [try] block ended. *)
Definition output_text_of (v : string + exn) : string :=
  match v with
  | inl text => text
  | inr e => reported e
  end.

(** [capture_path os language calls v]: the commands [calls] were spawned,
    in this order, and the [try] block ended with the text [v] or raised
    [v].  The clean-up at the end of the block raises when the temporary
    file is no longer there. *)
Inductive capture_path (os : OS) (language : string)
  : list (list string * Z) -> string + exn -> Prop :=
| cap_not_written e :
    capture_path os language [] (inr e)
| cap_unsupported :
    supported language = false ->
    capture_path os language [] (inl "")
| cap_first_raised c e :
    supported language = true ->
    raised_with os c e ->
    capture_path os language [c] (inr e)
| cap_interpreted c r :
    is_python language = true ->
    exited_with os c r ->
    capture_path os language [c] (inl (stdout r +:+ stderr r))
| cap_interpreted_not_cleaned c r e :
    is_python language = true ->
    exited_with os c r ->
    capture_path os language [c] (inr e)
| cap_compile_failed c r :
    is_compiled language = true ->
    exited_with os c r ->
    returncode r <> 0 ->
    capture_path os language [c] (inl ("Compilation Error:" +:+ nl +:+ stderr r))
| cap_compile_failed_not_cleaned c r e :
    is_compiled language = true ->
    exited_with os c r ->
    returncode r <> 0 ->
    capture_path os language [c] (inr e)
| cap_run_raised c r0 c' e :
    is_compiled language = true ->
    exited_with os c r0 ->
    returncode r0 = 0 ->
    raised_with os c' e ->
    capture_path os language [c; c'] (inr e)
| cap_compiled c r0 c' r :
    is_compiled language = true ->
    exited_with os c r0 ->
    returncode r0 = 0 ->
    exited_with os c' r ->
    capture_path os language [c; c'] (inl (stdout r +:+ stderr r))
| cap_compiled_not_cleaned c r0 c' r e :
    is_compiled language = true ->
    exited_with os c r0 ->
    returncode r0 = 0 ->
    exited_with os c' r ->
    capture_path os language [c; c'] (inr e).




(** ** Concrete worlds

    Small instances of [OS], used to run the functions on concrete inputs. *)

(** The first bytes of a PNG file stand for the picture. *)
Definition png_stub : list Byte.byte :=
  [Byte.x89; Byte.x50; Byte.x4e; Byte.x47].

(** Every call succeeds and every spawned command ends as [e]; a child
    process leaves the paths [made] behind and removes the paths [gone]. *)
Definition world (e : ending) (made gone : gset string) : OS := {|
  mkdtemp_ans := inl "/tmp/tmpq1w2e3r4";
  mkstemp_ans := inl "/tmp/tmpa1b2c3d4";
  open_ans := fun _ => None;
  write_ans := fun _ => None;
  run_ans := fun _ _ => Proc e made gone;
  re_public_class := fun _ => Some "Main";
  path_stem := fun _ => "tmpa1b2c3d4";
  path_parent := fun _ => "/tmp";
  savefig_ans := fun _ => inl png_stub;
  list_ans := fun _ _ => inl (Some [])
|}.

(** A command exits with code [rc] after printing [out] and [err]. *)
Definition exits (rc : Z) (out err : string) : OS :=
  world (Exited (Completed rc out err)) ∅ ∅.

(** [subprocess.run] raises [e]. *)
Definition raises (e : exn) : OS := world (Raised e) ∅ ∅.

(** A command exits with code [rc] after printing [out] and [err] and
    removing the path [p]. *)
Definition exits_removing (p : string) (rc : Z) (out err : string) : OS :=
  world (Exited (Completed rc out err)) ∅ {[ p ]}.

(** The temporary directory cannot be made. *)
Definition no_tmp : OS := {|
  mkdtemp_ans := inr (FileNotFoundError
    "[Errno 2] No usable temporary directory found in ['/tmp', '/var/tmp', '/usr/tmp', '/root']");
  mkstemp_ans := mkstemp_ans (exits 0 "" "");
  open_ans := open_ans (exits 0 "" "");
  write_ans := write_ans (exits 0 "" "");
  run_ans := run_ans (exits 0 "" "");
  re_public_class := re_public_class (exits 0 "" "");
  path_stem := path_stem (exits 0 "" "");
  path_parent := path_parent (exits 0 "" "");
  savefig_ans := savefig_ans (exits 0 "" "");
  list_ans := list_ans (exits 0 "" "")
|}.

(** The screenshot cannot be rendered. *)
Definition no_png : OS := {|
  mkdtemp_ans := mkdtemp_ans (exits 0 "" "");
  mkstemp_ans := mkstemp_ans (exits 0 "" "");
  open_ans := open_ans (exits 0 "" "");
  write_ans := write_ans (exits 0 "" "");
  run_ans := run_ans (exits 0 "" "");
  re_public_class := re_public_class (exits 0 "" "");
  path_stem := path_stem (exits 0 "" "");
  path_parent := path_parent (exits 0 "" "");
  savefig_ans := fun _ => inr (OtherException "No module named 'matplotlib'");
  list_ans := list_ans (exits 0 "" "")
|}.

(** The remote service answers the listing of submissions with [a]. *)
Definition lists (a : option (list dict) + exn) : OS := {|
  mkdtemp_ans := mkdtemp_ans (exits 0 "" "");
  mkstemp_ans := mkstemp_ans (exits 0 "" "");
  open_ans := open_ans (exits 0 "" "");
  write_ans := write_ans (exits 0 "" "");
  run_ans := run_ans (exits 0 "" "");
  re_public_class := re_public_class (exits 0 "" "");
  path_stem := path_stem (exits 0 "" "");
  path_parent := path_parent (exits 0 "" "");
  savefig_ans := savefig_ans (exits 0 "" "");
  list_ans := fun _ _ => a
|}.

(** * More of the code

    The functions around the execution harness: the selection of coding
    assignments, the listing of course work, the upload and turn-in calls,
    the choice of the output that is shown, the layout of the code
    screenshot, and the escaping of text for the PDF report. *)

(** ** More Python strings *)

Module PyStr.

(** [needle in hay] for two strings *)
Fixpoint str_in (needle hay : string) : bool :=
  (String.prefix needle hay ||
   match hay with
   | EmptyString => false
   | String _ hay' => str_in needle hay'
   end)%bool.

(** [any(k in text for k in keywords)] *)
Definition any_in (keywords : list string) (text : string) : bool :=
  existsb (fun k => str_in k text) keywords.

(** [s.split('\n')]: the pieces between the line feeds; never empty.
    [cur] is the piece being read, in reverse. *)
Fixpoint split_from (cur : string) (s : string) : list string :=
  match s with
  | EmptyString => [String.rev cur]
  | String c s' =>
      if Ascii.eqb c (ascii_of_nat 10)
      then String.rev cur :: split_from EmptyString s'
      else split_from (String c cur) s'
  end.

Definition split_lines (s : string) : list string := split_from EmptyString s.

(** The ASCII characters that [str.isspace] accepts. *)
Definition is_space (c : ascii) : bool :=
  let n := nat_of_ascii c in
  ((9 <=? n)%nat && (n <=? 13)%nat || (28 <=? n)%nat && (n <=? 32)%nat)%bool.

(** [s.lstrip()]; [s.strip().startswith(p)] for a [p] that does not start
    with a space looks at the left end only. *)
Fixpoint lstrip (s : string) : string :=
  match s with
  | EmptyString => EmptyString
  | String c s' => if is_space c then lstrip s' else s
  end.

(** [bool(s)] for a string *)
Definition truthy (s : string) : bool := negb (String.eqb s "").

End PyStr.

(** ** submit.py: [detect_coding_assignments] *)

Module submit.

Definition CODING_LANGUAGES : list string :=
  ["python"; "java"; "c++"; "cpp"; "c"; "javascript"; "js"].

Definition ASSIGNMENT_KEYWORDS : list string :=
  ["assignment"; "homework"; "coding"; "program"; "exercise"; "problem";
   "question"].

(** The test of the loop body: [has_coding_keyword or has_language]. *)
Definition looks_like_coding (work : dict) : bool :=
  let title := Py.lower (default "" (work !! "title")) in
  let description := Py.lower (default "" (work !! "description")) in
  let combined_text := title +:+ " " +:+ description in
  let has_coding_keyword := PyStr.any_in ASSIGNMENT_KEYWORDS combined_text in
  let has_language := PyStr.any_in CODING_LANGUAGES combined_text in
  (has_coding_keyword || has_language)%bool.

(** The [for] loop appends to [coding_assignments], which starts empty. *)
Definition detect_coding_assignments (coursework_list : list dict) : list dict :=
  fold_left
    (fun coding_assignments work =>
       if looks_like_coding work
       then coding_assignments ++ [work]
       else coding_assignments)
    coursework_list [].

End submit.

(** ** Calls to the remote services

    The Classroom and Drive calls of [submit_assignment], [upload_to_drive]
    and [upload_to_classroom].  A computation returns a value or raises, and
    leaves the list of the remote calls it made, in order. *)

Inductive call : Type :=
| MediaFileUpload (path : string)
| DriveCreate (name path : string)
| ListSubmissions (course_id coursework_id : string)
| ModifyAttachments (course_id coursework_id submission_id : string)
    (drive_file_id : option string)
| TurnIn (course_id coursework_id submission_id : string).

Record Remote : Type := {
  (** [MediaFileUpload(path, mimetype='application/pdf')] *)
  media_ans : string -> option exn;
  (** [drive_service.files().create(...).execute()]: the value under
      ['id'] of the answer, if the key is there, or the error *)
  create_ans : string -> string -> option string + exn;
  (** [studentSubmissions().list(...).execute()]: the value under
      ['studentSubmissions'], if the key is there, or the error *)
  submissions_ans : string -> string -> option (list dict) + exn;
  (** [studentSubmissions().modifyAttachments(...).execute()] *)
  modify_ans : string -> string -> string -> option string -> option exn;
  (** [studentSubmissions().turnIn(...).execute()] *)
  turnin_ans : string -> string -> string -> option exn
}.

Definition R (A : Type) : Type := (A + exn) * list call.

Definition rret {A} (a : A) : R A := (inl a, []).

Definition rraise {A} (e : exn) : R A := (inr e, []).

Definition rbind {A B} (m : R A) (k : A -> R B) : R B :=
  match m with
  | (inl a, l1) => match k a with (v, l2) => (v, l1 ++ l2) end
  | (inr e, l1) => (inr e, l1)
  end.

(** [try: m  except HttpError as e: h] *)
Definition except_http {A} (m : R A) (h : R A) : R A :=
  match m with
  | (inr (HttpError _), l1) => match h with (v, l2) => (v, l1 ++ l2) end
  | other => other
  end.

(** One remote call that returns nothing: it is logged, and raises if the
    service says so. *)
Definition rcall (c : call) (ans : option exn) : R unit :=
  match ans with
  | None => (inl tt, [c])
  | Some e => (inr e, [c])
  end.

(** One remote call with an answer. *)
Definition rask {A} (c : call) (ans : A + exn) : R A := (ans, [c]).

(** [os.path.basename(p)]: what follows the last slash.  [cur] is the
    piece being read, in reverse. *)
Fixpoint basename_from (cur : string) (p : string) : string :=
  match p with
  | EmptyString => String.rev cur
  | String c p' =>
      if Ascii.eqb c "/"%char then basename_from EmptyString p'
      else basename_from (String c cur) p'
  end.

Definition basename (p : string) : string := basename_from EmptyString p.

Module submit_remote.
Section WithRemote.
Variable rm : Remote.

(** submit.py: [upload_to_drive] *)
Definition upload_to_drive (file_path file_name : string) : R (option string) :=
  except_http
    (rbind (rcall (MediaFileUpload file_path) (media_ans rm file_path)) (fun _ =>
     rbind (rask (DriveCreate file_name file_path) (create_ans rm file_name file_path))
       (fun file_id => rret file_id)))
    (rret None).

(** submit.py: [submit_assignment]; it returns [None] on every path. *)
Definition submit_assignment
    (course_id coursework_id submission_id : string) (drive_file_id : option string)
  : R unit :=
  except_http
    (rbind (rcall (ModifyAttachments course_id coursework_id submission_id drive_file_id)
              (modify_ans rm course_id coursework_id submission_id drive_file_id))
       (fun _ =>
     rcall (TurnIn course_id coursework_id submission_id)
       (turnin_ans rm course_id coursework_id submission_id)))
    (rret tt).

(** submit.py, [detect]: the block under [if auto_submit:]; the value is
    the new [total_submitted]. *)
Definition detect_submit
    (auto_submit : bool) (pdf_path pdf_filename : string)
    (course_id assignment_id submission_id : string) (total_submitted : Z)
  : R Z :=
  if auto_submit then
    rbind (upload_to_drive pdf_path pdf_filename) (fun drive_file_id =>
    if negb (Py.falsy drive_file_id) then
      rbind (submit_assignment course_id assignment_id submission_id drive_file_id)
        (fun _ => rret (total_submitted + 1))
    else rret total_submitted)
  else rret total_submitted.

(** assignment_solver.py: [upload_to_classroom].  A first record without
    the key ['id'] makes [submissions['studentSubmissions'][0]['id']]
    raise [KeyError]. *)
Definition upload_to_classroom (course_id coursework_id pdf_path : string)
  : R bool :=
  except_http
    (rbind (rcall (MediaFileUpload pdf_path) (media_ans rm pdf_path)) (fun _ =>
     rbind (rask (DriveCreate (basename pdf_path) pdf_path)
              (create_ans rm (basename pdf_path) pdf_path)) (fun file_id =>
     rbind (rask (ListSubmissions course_id coursework_id)
              (submissions_ans rm course_id coursework_id)) (fun submissions =>
     match default [] submissions with
     | submission :: _ =>
         match submission !! "id" with
         | None => rraise (OtherException "'id'")
         | Some submission_id =>
             rbind (rcall (ModifyAttachments course_id coursework_id submission_id file_id)
                      (modify_ans rm course_id coursework_id submission_id file_id))
               (fun _ =>
             rbind (rcall (TurnIn course_id coursework_id submission_id)
                      (turnin_ans rm course_id coursework_id submission_id))
               (fun _ => rret true))
         end
     | [] => rret false
     end))))
    (rret false).

End WithRemote.
End submit_remote.

(** ** assignment_solver.py: the output that is shown, and the screenshot *)

Module assignment_solver.

(** [solve_assignment], in the loop over the problems: the code of the
    solution is executed, and the output handed to the screenshot is the
    stdout of the run when it succeeded and the example output of the
    generated solution otherwise. *)
Definition solve_assignment_output
    (os : OS) (solution : dict) (language : string) : M string :=
  match solution !! "code" with
  | None => raise (OtherException "'code'")
  | Some code =>
      bind (execute_code os code language) (fun r =>
      let '(out, err, success) := r in
      if success then ret out
      else ret (default "" (solution !! "example_output")))
  end.

(** One call of [draw.text((x, y), text, fill=fill, font=...)]; [bold]
    tells [font_bold] from [font]. *)
Record text_call : Type := TextCall {
  at_x : Z;
  at_y : Z;
  text : string;
  fill : string;
  bold : bool
}.

Definition width : Z := 1200.
Definition padding : Z := 40.
Definition line_height : Z := 20.

Definition double_quote : string := String (ascii_of_nat 34) EmptyString.

(** The colour of a line of code. *)
Definition line_color (line : string) : string :=
  if PyStr.any_in ["class"; "def"; "public"; "private"; "import"; "package"] line
  then "#569cd6"
  else if (Py.startswith (PyStr.lstrip line) "#"
           || Py.startswith (PyStr.lstrip line) "//")%bool
  then "#6a9955"
  else if (PyStr.str_in double_quote line || PyStr.str_in "'" line)%bool
  then "#ce9178"
  else "#d4d4d4".

(** [for line in lines: draw.text((padding + 20, y_offset), line[:120], ...);
    y_offset += line_height]: the calls and the final [y_offset]. *)
Fixpoint draw_lines (color : string -> string) (lines : list string) (y_offset : Z)
  : list text_call * Z :=
  match lines with
  | [] => ([], y_offset)
  | line :: rest =>
      let '(calls, y') := draw_lines color rest (y_offset + line_height) in
      (TextCall (padding + 20) y_offset (Py.take 120 line) (color line) false :: calls, y')
  end.

(** The picture of [create_code_screenshot]: its height and the texts
    drawn on it, in order.  The picture is then saved to a temporary
    [.png] file, whose name is returned. *)
Definition create_code_screenshot
    (code output language problem_num : string) : Z * list text_call :=
  let code_lines := PyStr.split_lines code in
  let output_lines := if PyStr.truthy output then PyStr.split_lines output else [""] in
  let total_lines := Z.of_nat (length code_lines) + Z.of_nat (length output_lines) + 10 in
  let height := Z.max 800 (total_lines * line_height + padding * 4) in
  let y_offset := padding in
  let title := "Program " +:+ problem_num +:+ " - " +:+ language in
  let d1 := [TextCall padding y_offset title "#4ec9b0" true] in
  let y_offset := y_offset + 40 in
  let d2 := [TextCall padding y_offset "CODE:" "#569cd6" true] in
  let y_offset := y_offset + 30 in
  let '(d3, y_offset) := draw_lines line_color (firstn 50 code_lines) y_offset in
  let '(d4, y_offset) :=
    if (50 <? length code_lines)%nat
    then ([TextCall (padding + 20) y_offset "... (code truncated) ..." "#858585" false],
          y_offset + line_height * 2)
    else ([], y_offset) in
  let y_offset := y_offset + 20 in
  let d5 :=
    if PyStr.truthy output then
      let d51 := [TextCall padding y_offset "OUTPUT:" "#569cd6" true] in
      let y_offset := y_offset + 30 in
      let '(d52, y_offset) :=
        draw_lines (fun _ => "#cccccc") (firstn 30 output_lines) y_offset in
      let d53 :=
        if (30 <? length output_lines)%nat
        then [TextCall (padding + 20) y_offset "... (output truncated) ..." "#858585" false]
        else [] in
      d51 ++ d52 ++ d53
    else [] in
  (height, d1 ++ d2 ++ d3 ++ d4 ++ d5).

End assignment_solver.

(** ** submit.py: [get_coursework] and [_parse_timestamp]

    A [datetime] is counted in microseconds from [datetime.min]; the naive
    ones lie between [0] and [datetime_max].  A timestamp with a UTC offset
    other than the ones [_parse_timestamp] strips parses to an aware
    [datetime], which Python refuses to compare with a naive one. *)

Inductive datetime : Type :=
| Naive (t : Z)
| Aware (t : Z).

Definition datetime_min : datetime := Naive 0.

(** 9999-12-31 23:59:59.999999 *)
Definition datetime_max : Z := 3652059 * 86400 * 1000000 - 1.

(** One page of [courseWork().list(...)]: the values under ['courseWork']
    and ['nextPageToken'], where the keys are there. *)
Record page : Type := Page {
  courseWork : option (list dict);
  nextPageToken : option string
}.

Record Classroom : Type := {
  (** [courseWork().list(courseId, pageSize=100, pageToken, orderBy)
      .execute()] *)
  coursework_ans : string -> option string -> page + exn;
  (** [datetime.now()] in the n-th round of the loop *)
  now_ans : nat -> Z;
  (** [datetime.fromisoformat(s)]; [None] when it raises *)
  fromisoformat_ans : string -> option datetime
}.

Module submit_listing.
Section WithClassroom.
Variable cl : Classroom.

(** [_parse_timestamp]; [ts] is [None] when the key is missing. *)
Definition _parse_timestamp (ts : option string) : datetime :=
  if Py.falsy ts then datetime_min
  else
    let ts := Py.replace (default "" ts) "Z" "+00:00" in
    match fromisoformat_ans cl (Py.replace ts "+00:00" "") with
    | Some t => t
    | None => datetime_min
    end.

(** [datetime.now() - timedelta(hours=since_hours)]: an [OverflowError]
    when the result is not a [datetime]; its message is not modelled. *)
Definition cutoff_of (now since_hours : Z) : Z + exn :=
  let c := now - since_hours * 3600 * 1000000 in
  if ((c <? 0) || (datetime_max <? c))%bool
  then inr (OtherException "OverflowError")
  else inl c.

(** [a > cutoff] for a naive [cutoff]: a [TypeError] for an aware [a]. *)
Definition later_than (a : datetime) (cutoff : Z) : bool + exn :=
  match a with
  | Naive t => inl (cutoff <? t)
  | Aware _ =>
      inr (OtherException "can't compare offset-naive and offset-aware datetimes")
  end.

(** [[i for i in items if self._parse_timestamp(i.get('updateTime')) > cutoff]] *)
Fixpoint newer_items (cutoff : Z) (items : list dict) : list dict + exn :=
  match items with
  | [] => inl []
  | i :: rest =>
      match later_than (_parse_timestamp (i !! "updateTime")) cutoff with
      | inr e => inr e
      | inl keep =>
          match newer_items cutoff rest with
          | inr e => inr e
          | inl rest' => inl (if keep then i :: rest' else rest')
          end
      end
  end.

(** [if since_hours:] for an [Optional[int]] *)
Definition since_given (since_hours : option Z) : bool :=
  match since_hours with
  | None => false
  | Some h => negb (h =? 0)
  end.

(** The [while True:] loop, [round] rounds in; [None] when [fuel] rounds
    were not enough to reach the [break]. *)
Fixpoint get_coursework_loop
    (fuel round : nat) (course_id : string) (since_hours : option Z)
    (page_token : option string) (coursework_list : list dict)
  : option (list dict + exn) :=
  match fuel with
  | O => None
  | S fuel' =>
      match coursework_ans cl course_id page_token with
      | inr e => Some (inr e)
      | inl response =>
          let items := default [] (courseWork response) in
          let filtered :=
            if since_given since_hours then
              match cutoff_of (now_ans cl round) (default 0 since_hours) with
              | inr e => inr e
              | inl cutoff => newer_items cutoff items
              end
            else inl items in
          match filtered with
          | inr e => Some (inr e)
          | inl items =>
              let coursework_list := coursework_list ++ items in
              let page_token := nextPageToken response in
              if Py.falsy page_token then Some (inl coursework_list)
              else get_coursework_loop fuel' (S round) course_id since_hours
                     page_token coursework_list
          end
      end
  end.

(** [get_coursework]: the loop inside [try], with [except HttpError]
    returning the empty list. *)
Definition get_coursework
    (fuel : nat) (course_id : string) (since_hours : option Z)
  : option (list dict + exn) :=
  match get_coursework_loop fuel O course_id since_hours None [] with
  | Some (inr (HttpError _)) => Some (inl [])
  | other => other
  end.

End WithClassroom.
End submit_listing.

(** ** assignment_solver.py, [create_pdf_report]: escaping

    Each line of the code, and the example output, goes through
    [.replace('&', '&amp;').replace('<', '&lt;').replace('>', '&gt;')]
    before it is handed to [Preformatted]. *)

Definition escape_markup (line : string) : string :=
  Py.replace (Py.replace (Py.replace line "&" "&amp;") "<" "&lt;") ">" "&gt;".

(** ** Concrete remote services *)

(** Everything succeeds, but the turn-in is refused. *)
Definition turn_in_refused : Remote := {|
  media_ans := fun _ => None;
  create_ans := fun _ _ => inl (Some "1AbCdEf");
  submissions_ans := fun _ _ => inl (Some [ {[ "id" := "Cg4I"; "state" := "TURNED_IN" ]} ]);
  modify_ans := fun _ _ _ _ => None;
  turnin_ans := fun _ _ _ => Some (HttpError "<HttpError 400 Precondition check failed>")
|}.

(** The listing of submissions answers [a]; every other call succeeds. *)
Definition lists_remote (a : option (list dict) + exn) : Remote := {|
  media_ans := fun _ => None;
  create_ans := fun _ _ => inl (Some "1AbCdEf");
  submissions_ans := fun _ _ => a;
  modify_ans := fun _ _ _ _ => None;
  turnin_ans := fun _ _ _ => None
|}.

(** Drive refuses the upload. *)
Definition drive_refuses : Remote := {|
  media_ans := fun _ => None;
  create_ans := fun _ _ => inr (HttpError "<HttpError 403 Insufficient permissions>");
  submissions_ans := fun _ _ => inl (Some [ {[ "id" := "Cg4I" ]} ]);
  modify_ans := fun _ _ _ _ => None;
  turnin_ans := fun _ _ _ => None
|}.

(** Every remote call succeeds; the one submission is already turned in. *)
Definition already_turned_in : Remote :=
  lists_remote (inl (Some [ {[ "id" := "Cg4I"; "state" := "TURNED_IN" ]} ])).

(** ** The pages of a listing *)

(** [walk cl course_id token ps token']: starting with the request for
    [token], the service answers the pages [ps] one after the other, each
    with a token for the next, and [token'] is the token to ask for after
    them. *)
Inductive walk (cl : Classroom) (course_id : string)
  : option string -> list page -> option string -> Prop :=
| walk_done token : walk cl course_id token [] token
| walk_step token p ps token' :
    coursework_ans cl course_id token = inl p ->
    Py.falsy (nextPageToken p) = false ->
    walk cl course_id (nextPageToken p) ps token' ->
    walk cl course_id token (p :: ps) token'.

(** [response.get('courseWork', [])] *)
Definition items_of (p : page) : list dict := default [] (courseWork p).

(** A service with two pages of course work; the second request fails
    when [second] is an error. *)
Definition two_pages (second : page + exn) : Classroom := {|
  coursework_ans := fun _ token =>
    if Py.falsy token
    then inl (Page (Some [ {[ "id" := "1"; "updateTime" := "2024-05-01T10:00:00Z" ]};
                           {[ "id" := "2" ]} ]) (Some "page-2"))
    else second;
  now_ans := fun _ => 63850000000000000;
  fromisoformat_ans := fun s =>
    if String.eqb s "2024-05-01T10:00:00" then Some (Naive 63849900000000000) else None
|}.

(** [page_items cl since_hours round response]: what the loop of
    [get_coursework] keeps of the page [response] in its round [round]:
    all of its course work, or with a time window the works updated after
    the cutoff of that round. *)
Definition page_items
    (cl : Classroom) (since_hours : option Z) (round : nat) (response : page)
  : list dict + exn :=
  if submit_listing.since_given since_hours then
    match submit_listing.cutoff_of (now_ans cl round) (default 0 since_hours) with
    | inr e => inr e
    | inl cutoff => submit_listing.newer_items cl cutoff (default [] (courseWork response))
    end
  else inl (default [] (courseWork response)).

(** [fetched cl course_id since_hours round token kept n token']: from
    round [round] on, starting with the request for [token], the service
    answers [n] pages one after the other, each with a token for the next;
    the loop keeps the works [kept] of them without raising, and [token']
    is the token to ask for after them. *)
Inductive fetched (cl : Classroom) (course_id : string) (since_hours : option Z)
  : nat -> option string -> list dict -> nat -> option string -> Prop :=
| fetched_none round token :
    fetched cl course_id since_hours round token [] 0 token
| fetched_page round token p items kept n token' :
    coursework_ans cl course_id token = inl p ->
    page_items cl since_hours round p = inl items ->
    Py.falsy (nextPageToken p) = false ->
    fetched cl course_id since_hours (S round) (nextPageToken p) kept n token' ->
    fetched cl course_id since_hours round token (items ++ kept) (S n) token'.

(** ** Child processes and the files of others *)

(** The process spawned for [call] does not remove the path [p]. *)
Definition keeps (os : OS) (p : string) (call : list string * Z) : Prop :=
  p ∉ proc_gone (run_ans os call.1 call.2).

(** ** Characters of a string *)

(** [s] holds the character [c]. *)
Fixpoint has_char (c : ascii) (s : string) : bool :=
  match s with
  | EmptyString => false
  | String a s' => (Ascii.eqb c a || has_char c s')%bool
  end.

(** Every [c] of [s] replaced by [new]. *)
Fixpoint subst_char (c : ascii) (new s : string) : string :=
  match s with
  | EmptyString => EmptyString
  | String a s' =>
      if Ascii.eqb c a then new +:+ subst_char c new s'
      else String a (subst_char c new s')
  end.
(** * Proofs *)

Arguments Py.path_join : simpl never.
Arguments Py.replace : simpl never.
Arguments Py.lower : simpl never.
Arguments Py.upper : simpl never.
Arguments Py.take : simpl never.

(** Case analysis on what the outside world answers. *)
Ltac ask_world :=
  repeat (cbn;
          match goal with
          | |- context [match open_ans ?os ?p with _ => _ end] =>
              destruct (open_ans os p) eqn:?
          | |- context [match write_ans ?os ?p with _ => _ end] =>
              destruct (write_ans os p) eqn:?
          | |- context [match mkstemp_ans ?os with _ => _ end] =>
              destruct (mkstemp_ans os) eqn:?
          | |- context [proc_end (run_ans ?os ?a ?t)] =>
              let E := fresh "Hrun" in
              destruct (proc_end (run_ans os a t)) as [? | ?] eqn:E
          | |- context [negb (returncode ?r =? 0)] =>
              destruct (Z.eqb_spec (returncode r) 0)
          | |- context [if returncode ?r =? 0 then _ else _] =>
              destruct (Z.eqb_spec (returncode r) 0)
          end).

(** Case analysis on the tests of the clean-up: a path that no child
    process could touch is on disk when it is unlinked; any other may or
    may not be there. *)
Ltac ask_disk :=
  repeat (cbn;
          match goal with
          | |- context [bool_decide (?p ∈ ?s)] =>
              first [ rewrite (bool_decide_eq_true_2 (p ∈ s)) by set_solver
                    | destruct (bool_decide (p ∈ s)) eqn:? ]
          end).

Lemma python_supported (language : string) :
  is_python language = true -> supported language = true.
Proof. unfold supported. intros ->. reflexivity. Qed.

Lemma compiled_supported (language : string) :
  is_compiled language = true -> supported language = true.
Proof. unfold supported. intros ->. apply orb_true_r. Qed.

Lemma java_compiled (language : string) :
  is_java language = true -> is_compiled language = true.
Proof. unfold is_compiled. intros ->. reflexivity. Qed.

Lemma cpp_compiled (language : string) :
  is_cpp language = true -> is_compiled language = true.
Proof. unfold is_compiled. intros ->. apply orb_true_r. Qed.

Lemma python_not_compiled (language : string) :
  is_python language = true -> is_compiled language = false.
Proof.
  unfold is_python, is_compiled, is_java, is_cpp.
  intros H%String.eqb_eq. rewrite H. reflexivity.
Qed.

Lemma python_not_cpp (language : string) :
  is_python language = true -> is_cpp language = false.
Proof.
  unfold is_python, is_cpp. intros H%String.eqb_eq. rewrite H. reflexivity.
Qed.

Lemma java_not_cpp (language : string) :
  is_java language = true -> is_cpp language = false.
Proof.
  unfold is_java, is_cpp. intros H%String.eqb_eq. rewrite H. reflexivity.
Qed.

Create HintDb lang.
#[export] Hint Resolve python_supported compiled_supported java_compiled
  cpp_compiled : lang.

(** ** The monad: basic facts *)

Lemma try_finally_rmtree (A : Type) (m : M A) (p : string) (d : gset string) :
  try_finally m (rmtree p) d =
  Outcome (value (m d)) (filter (fun q => under p q = false) (disk_after (m d)))
          (events (m d)).
Proof.
  unfold try_finally, rmtree. destruct (m d) as [v d1 ev1]. cbn.
  rewrite app_nil_r. reflexivity.
Qed.

Lemma rmtree_gone (p q : string) (d : gset string) :
  under p q = true -> q ∉ filter (fun q => under p q = false) d.
Proof.
  intros Hu Hq. apply elem_of_filter in Hq as [Hq _]. congruence.
Qed.

(** After the temporary directory has been made, [execute_code] is the
    [try]/[except]/[finally] statement run on the disk that holds it. *)
Lemma execute_code_unfold (os : OS) (code language t : string) (d : gset string) :
  mkdtemp_ans os = inl t ->
  execute_code os code language d =
  try_finally
    (try_except (execute_code_try os t code language) execute_code_except)
    (rmtree t) (d ∪ {[t]}).
Proof.
  intros Ht.
  set (o := try_finally
              (try_except (execute_code_try os t code language) execute_code_except)
              (rmtree t) (d ∪ {[t]})).
  unfold execute_code, bind, mkdtemp. rewrite Ht. fold o.
  destruct o; reflexivity.
Qed.

Lemma execute_code_except_value (e : exn) (d : gset string) :
  execute_code_except e d = Outcome (inl (handled e)) d [].
Proof. destruct e; reflexivity. Qed.


Lemma execute_code_try_path (os : OS) (t code language : string) (d : gset string) :
  let o := try_except (execute_code_try os t code language) execute_code_except d in
  exists r, value o = inl r /\ code_path os language (spawns (events o)) r.
Proof.
  unfold try_except, execute_code_try.
  change (String.eqb (Py.lower language) "c++"
          || String.eqb (Py.lower language) "cpp")%bool with (is_cpp language).
  change (String.eqb (Py.lower language) "java") with (is_java language).
  change (String.eqb (Py.lower language) "python") with (is_python language).
  destruct (is_python language) eqn:Hpy;
    [| destruct (is_java language) eqn:Hj;
       [| destruct (is_cpp language) eqn:Hc]].
  4: { cbn. eexists; split; [reflexivity|]. apply path_unsupported.
       unfold supported, is_compiled. rewrite Hpy, Hj, Hc. reflexivity. }
  all: unfold bind, write_file, subprocess_run, finish, ret.
  all: ask_world.
  all: repeat (rewrite ?execute_code_except_value; cbn).
  all: eexists; (split; [reflexivity|]).
  all: try (apply path_not_written; auto with lang; fail).
  all: try (eapply path_interpreted; eauto; fail).
  all: try (eapply path_first_raised; eauto with lang; fail).
  all: try (eapply path_compile_failed; eauto with lang; fail).
  all: try (eapply path_run_raised; eauto with lang; reflexivity).
  all: try (eapply path_compiled; eauto with lang; reflexivity).
Qed.

Lemma execute_code_path (os : OS) (code language t : string) (d : gset string) :
  mkdtemp_ans os = inl t ->
  exists r,
    value (execute_code os code language d) = inl r /\
    code_path os language (spawns (events (execute_code os code language d))) r.
Proof.
  intros Ht. rewrite (execute_code_unfold _ _ _ _ _ Ht).
  rewrite try_finally_rmtree. cbn [value events].
  apply execute_code_try_path.
Qed.

(** Whatever happens in the [try] block, and whatever the child processes
    have written, nothing of the temporary directory is left. *)
Lemma execute_code_workspace_removed
    (os : OS) (code language t q : string) (d : gset string) :
  mkdtemp_ans os = inl t ->
  under t q = true ->
  q ∉ disk_after (execute_code os code language d).
Proof.
  intros Ht Hq. rewrite (execute_code_unfold _ _ _ _ _ Ht).
  rewrite try_finally_rmtree. cbn [disk_after]. apply rmtree_gone. exact Hq.
Qed.

Lemma capture_except_value (e : exn) (d : gset string) :
  capture_except e d = Outcome (inl (reported e)) d [].
Proof. destruct e; reflexivity. Qed.


Lemma capture_try_path (os : OS) (code language : string) (d : gset string) :
  let o := capture_try os code language d in
  capture_path os language (spawns (events o)) (value o).
Proof.
  unfold capture_try.
  generalize (default ".txt" (ext_map !! Py.lower language)). intros ext.
  unfold capture_run, capture_cleanup.
  change (String.eqb (Py.lower language) "c++"
          || String.eqb (Py.lower language) "cpp")%bool with (is_cpp language).
  change (String.eqb (Py.lower language) "java") with (is_java language).
  change (String.eqb (Py.lower language) "python") with (is_python language).
  unfold bind, named_temporary_file, subprocess_run, unlink, path_exists, ret.
  destruct (is_python language) eqn:Hpy;
    [ rewrite (python_not_cpp _ Hpy)
    | destruct (is_java language) eqn:Hj;
      [ rewrite (java_not_cpp _ Hj) | destruct (is_cpp language) eqn:Hc ] ].
  all: ask_world.
  all: ask_disk.
  all: try congruence.
  all: cbn.
  all: try (apply cap_not_written; fail).
  all: try (apply cap_unsupported; unfold supported, is_compiled;
            rewrite Hpy, Hj, Hc; reflexivity).
  all: try (eapply cap_interpreted; eauto; fail).
  all: try (eapply cap_interpreted_not_cleaned; eauto; fail).
  all: try (eapply cap_first_raised; eauto with lang; fail).
  all: try (eapply cap_compile_failed; eauto with lang; fail).
  all: try (eapply cap_compile_failed_not_cleaned; eauto with lang; fail).
  all: try (eapply cap_run_raised; eauto with lang; reflexivity).
  all: try (eapply cap_compiled; eauto with lang; reflexivity).
  all: try (eapply cap_compiled_not_cleaned; eauto with lang; reflexivity).
Qed.

(** The [except] clauses and the screenshot spawn nothing and touch no
    file; with a renderer that returns, the whole function returns the text
    that the [try] statement has left in [output_text]. *)
Lemma execute_code_and_capture_value
    (os : OS) (code language : string) (test_cases : list dict) (d : gset string) :
  renders os ->
  let o := execute_code_and_capture os code language test_cases d in
  exists png,
    value o = inl (output_text_of (value (capture_try os code language d)), png) /\
    spawns (events o) = spawns (events (capture_try os code language d)) /\
    disk_after o = disk_after (capture_try os code language d).
Proof.
  intros Hpng. cbv zeta.
  unfold execute_code_and_capture, bind, try_except, create_output_screenshot.
  destruct (capture_try os code language d) as [[text|e] d1 ev1].
  - destruct (Hpng (Py.upper language +:+ " Output:" +:+ nl +:+ nl +:+ Py.take 1000 text))
      as [png Hs].
    rewrite Hs. cbn. exists png. rewrite !app_nil_r. auto.
  - rewrite capture_except_value.
    destruct (Hpng (Py.upper language +:+ " Output:" +:+ nl +:+ nl
                    +:+ Py.take 1000 (reported e))) as [png Hs].
    rewrite Hs. cbn. exists png. rewrite !app_nil_r. auto.
Qed.

Lemma execute_code_and_capture_path
    (os : OS) (code language : string) (test_cases : list dict) (d : gset string) :
  renders os ->
  let o := execute_code_and_capture os code language test_cases d in
  exists png,
    value o = inl (output_text_of (value (capture_try os code language d)), png) /\
    capture_path os language (spawns (events o)) (value (capture_try os code language d)).
Proof.
  intros Hpng. cbv zeta.
  destruct (execute_code_and_capture_value os code language test_cases d Hpng)
    as (png & Hv & Hs & _).
  exists png. split; [exact Hv|]. rewrite Hs. apply capture_try_path.
Qed.

Lemma exited_with_inj (os : OS) (c : list string * Z) (r r' : completed) :
  exited_with os c r -> exited_with os c r' -> r = r'.
Proof. unfold exited_with. congruence. Qed.

Lemma exited_not_raised (os : OS) (c : list string * Z) (r : completed) (e : exn) :
  exited_with os c r -> raised_with os c e -> False.
Proof. unfold exited_with, raised_with. congruence. Qed.

Lemma raised_with_inj (os : OS) (c : list string * Z) (e e' : exn) :
  raised_with os c e -> raised_with os c e' -> e = e'.
Proof. unfold raised_with. congruence. Qed.

Lemma compiled_not_python (language : string) :
  is_compiled language = true -> is_python language = true -> False.
Proof. intros Hc Hp. rewrite (python_not_compiled _ Hp) in Hc. discriminate. Qed.

(** ** Reading the paths *)

(** Two facts about the same spawned command are combined: its result and
    its exception are determined, and it cannot both exit and raise. *)
Ltac same_call :=
  repeat match goal with
         | H : exited_with ?os ?c _, H' : raised_with ?os ?c _ |- _ =>
             exfalso; exact (exited_not_raised _ _ _ _ H H')
         | H : exited_with ?os ?c ?r, H' : exited_with ?os ?c ?r' |- _ =>
             lazymatch r with
             | r' => fail
             | _ => pose proof (exited_with_inj _ _ _ _ H H'); subst
             end
         | H : raised_with ?os ?c ?e, H' : raised_with ?os ?c ?e' |- _ =>
             lazymatch e with
             | e' => fail
             | _ => pose proof (raised_with_inj _ _ _ _ H H'); subst
             end
         | H : is_compiled ?l = true, H' : is_python ?l = true |- _ =>
             exfalso; exact (compiled_not_python _ H H')
         end.

(** Membership in, and equations between, the short lists of calls. *)
Ltac split_calls :=
  repeat match goal with
         | H : _ ∈ [] |- _ => apply elem_of_nil in H; contradiction
         | H : _ ∈ _ :: _ |- _ => apply elem_of_cons in H as [-> | H]
         | H : [] = _ ++ [_] |- _ => apply app_cons_not_nil in H; contradiction
         | H : [_] = ?pre ++ [_] |- _ =>
             destruct pre as [|? [|? ?]]; cbn in H; try discriminate H;
             [injection H as <-]
         | H : [_; _] = ?pre ++ [_] |- _ =>
             destruct pre as [|? [|? [|? ?]]]; cbn in H; try discriminate H;
             [injection H as <- <-]
         end.

Lemma handled_not_success (e : exn) (out err : string) :
  handled e = (out, err, true) -> False.
Proof. destruct e; discriminate. Qed.

Section CodePaths.
Context (os : OS) (language : string).

Lemma code_path_success calls out err :
  code_path os language calls (out, err, true) ->
  supported language = true /\ calls <> [] /\ Forall (exited_zero os) calls.
Proof.
  intros Hp. remember (out, err, true) as v eqn:Hv.
  destruct Hp; try discriminate Hv.
  all: try (destruct (handled_not_success _ _ _ Hv)).
  all: injection Hv as _ _ Hrc; apply Z.eqb_eq in Hrc.
  all: split; [auto with lang|]; split; [discriminate|].
  all: repeat constructor; eexists; split; eassumption.
Qed.



Lemma code_path_raised calls v c e :
  code_path os language calls v ->
  c ∈ calls ->
  raised_with os c e ->
  v = handled e.
Proof.
  intros Hp Hin Hr. destruct Hp; split_calls; same_call; reflexivity.
Qed.



Lemma capture_path_raised calls v c e :
  capture_path os language calls v ->
  c ∈ calls ->
  raised_with os c e ->
  v = inr e.
Proof.
  intros Hp Hin Hr. destruct Hp; split_calls; same_call; reflexivity.
Qed.

Lemma capture_path_unsupported calls v :
  capture_path os language calls v ->
  supported language = false ->
  calls = [] /\ (v = inl "" \/ exists e, v = inr e).
Proof.
  intros Hp Hu. destruct Hp; eauto.
  all: repeat match goal with
              | H : is_python language = true |- _ => apply python_supported in H
              | H : is_compiled language = true |- _ => apply compiled_supported in H
              end; congruence.
Qed.

End CodePaths.

(** * The claims *)

(** ** One result per call *)

(** C1, as stated, fails in three places: [execute_code] makes its temporary
    directory before the [try] statement, so an error of [mkdtemp]
    propagates; [execute_code_and_capture] renders the screenshot after the
    [try] statement, so an error of the renderer propagates; and
    [execute_code_and_capture] never looks at the exit code of the program
    it ran, so a run that exits with code 1 returns the very pair that a
    run exiting with code 0 returns. *)
Lemma failure_not_always_a_failing_result :
  value (execute_code no_tmp "print(1)" "python" ∅) =
    inr (FileNotFoundError
      "[Errno 2] No usable temporary directory found in ['/tmp', '/var/tmp', '/usr/tmp', '/root']") /\
  value (execute_code_and_capture no_png "print(1)" "python" [] ∅) =
    inr (OtherException "No module named 'matplotlib'") /\
  value (execute_code_and_capture (exits 1 "" "") "raise SystemExit(1)" "python" [] ∅) =
    inl ("", png_stub) /\
  value (execute_code_and_capture (exits 0 "" "") "raise SystemExit(1)" "python" [] ∅) =
    inl ("", png_stub).
Proof. repeat split; vm_compute; reflexivity. Qed.

(** C1, amended.  When [mkdtemp] succeeds, a call of [execute_code] returns
    exactly one triple and raises nothing, and its success flag is set only
    if the language is supported, at least one process was spawned and
    every spawned process ran to completion with exit code 0: a timeout, a
    compile error, a failing run, any other exception and an unsupported
    language all return a triple with the flag cleared.  When the renderer
    of the screenshot returns, a call of [execute_code_and_capture] returns
    exactly one pair of text and picture and raises nothing; the pair has no
    success flag, and an exception raised anywhere in the [try] block is
    returned as the text of its [except] clause. *)
Theorem execute_returns_one_result
    (os : OS) (code language t : string) (test_cases : list dict) (d : gset string) :
  mkdtemp_ans os = inl t ->
  renders os ->
  (exists out err ok,
     value (execute_code os code language d) = inl (out, err, ok) /\
     (ok = true ->
      supported language = true /\
      spawns (events (execute_code os code language d)) <> [] /\
      Forall (exited_zero os) (spawns (events (execute_code os code language d))))) /\
  (exists text png,
     value (execute_code_and_capture os code language test_cases d) = inl (text, png) /\
     (forall e, value (capture_try os code language d) = inr e -> text = reported e)).
Proof.
  intros Ht Hpng. split.
  - destruct (execute_code_path os code language t d Ht) as ([[out err] ok] & Hv & Hp).
    exists out, err, ok. split; [exact Hv|].
    intros ->. eapply code_path_success. exact Hp.
  - destruct (execute_code_and_capture_path os code language test_cases d Hpng)
      as (png & Hv & _).
    exists (output_text_of (value (capture_try os code language d))), png.
    split; [exact Hv|]. intros e He. rewrite He. reflexivity.
Qed.

Lemma execute_returns_one_result_witness :
  (exists out err ok,
     value (execute_code (exits 0 "hello" "") "print('hello')" "python" ∅)
       = inl (out, err, ok) /\
     (ok = true ->
      supported "python" = true /\
      spawns (events (execute_code (exits 0 "hello" "") "print('hello')" "python" ∅)) <> [] /\
      Forall (exited_zero (exits 0 "hello" ""))
        (spawns (events (execute_code (exits 0 "hello" "") "print('hello')" "python" ∅))))) /\
  (exists text png,
     value (execute_code_and_capture (exits 0 "hello" "") "print('hello')" "python" [] ∅)
       = inl (text, png) /\
     (forall e, value (capture_try (exits 0 "hello" "") "print('hello')" "python" ∅) = inr e ->
                text = reported e)).
Proof.
  apply (execute_returns_one_result (exits 0 "hello" "") "print('hello')" "python"
           "/tmp/tmpq1w2e3r4" [] ∅).
  - reflexivity.
  - intros text. exists png_stub. reflexivity.
Defined.

(** ** Removal of the temporary workspace *)

(** C2 at its failing input: the program runs into the timeout of
    [execute_code_and_capture]; [subprocess.run] raises inside the [try]
    block, the two [os.unlink] calls at the end of that block are skipped,
    and the temporary source file is still on disk when the function
    returns.  [execute_code] removes its directory in a [finally] clause
    (lemma [execute_code_workspace_removed]). *)
Theorem capture_leaves_temp_file_after_timeout :
  let o := execute_code_and_capture
             (raises (TimeoutExpired "Command '['python3', '/tmp/tmpa1b2c3d4.py']' timed out after 5 seconds"))
             "while True: pass" "python" [] ∅ in
  value o = inl ("Execution timeout (>5 seconds)", png_stub) /\
  "/tmp/tmpa1b2c3d4.py" ∈ disk_after o /\
  disk_after (execute_code_and_capture (exits 0 "" "") "pass" "python" [] ∅) = ∅.
Proof.
  cbv zeta. split; [vm_compute; reflexivity|]. split; [|vm_compute; reflexivity].
  apply (bool_decide_unpack _). vm_compute. exact I.
Qed.

(** ** A failing compile step *)




(** ** A run that completes *)




(** ** Timeouts *)

(** C5 fails where it says that the result of a timeout can be told from
    the result of a crash: [execute_code] reports the timeout by the text
    "Execution timeout" in the stderr place of its ordinary triple, and
    [execute_code_and_capture] by the text "Execution timeout (>5 seconds)"
    in its one text.  A program that crashes with exit code 1 after
    writing that text to stderr returns the same triple, and a program
    that prints the longer text returns the same pair. *)
Lemma timeout_result_is_not_distinguished :
  value (execute_code
           (raises (TimeoutExpired "Command '['python3', '/tmp/tmpq1w2e3r4/solution.py']' timed out after 10 seconds"))
           "while True: pass" "python" ∅)
    = inl ("", "Execution timeout", false) /\
  value (execute_code (exits 1 "" "Execution timeout")
           "import sys; sys.exit('Execution timeout')" "python" ∅)
    = inl ("", "Execution timeout", false) /\
  value (execute_code_and_capture
           (raises (TimeoutExpired "Command '['python3', '/tmp/tmpa1b2c3d4.py']' timed out after 5 seconds"))
           "while True: pass" "python" [] ∅)
    = inl ("Execution timeout (>5 seconds)", png_stub) /\
  value (execute_code_and_capture (exits 1 "" "Execution timeout (>5 seconds)")
           "import sys; sys.exit('Execution timeout (>5 seconds)')" "python" [] ∅)
    = inl ("Execution timeout (>5 seconds)", png_stub).
Proof. repeat split; vm_compute; reflexivity. Qed.

(** C5, amended.  When a spawned process runs into its timeout,
    [execute_code] returns the fixed triple of an empty stdout, the stderr
    text "Execution timeout" and a cleared success flag, and
    [execute_code_and_capture] returns the fixed text
    "Execution timeout (>5 seconds)"; nothing the process had printed by
    then is returned. *)
Theorem timeout_gives_fixed_result
    (os : OS) (code language t : string) (test_cases : list dict) (d : gset string) :
  mkdtemp_ans os = inl t ->
  renders os ->
  (forall c m,
     c ∈ spawns (events (execute_code os code language d)) ->
     raised_with os c (TimeoutExpired m) ->
     value (execute_code os code language d)
       = inl ("", "Execution timeout", false)) /\
  (forall c m,
     c ∈ spawns (events (execute_code_and_capture os code language test_cases d)) ->
     raised_with os c (TimeoutExpired m) ->
     exists png,
       value (execute_code_and_capture os code language test_cases d)
         = inl ("Execution timeout (>5 seconds)", png)).
Proof.
  intros Ht Hpng. split.
  - intros c m Hin Hr.
    destruct (execute_code_path os code language t d Ht) as (v & Hv & Hp).
    rewrite Hv. f_equal. exact (code_path_raised _ _ _ _ _ _ Hp Hin Hr).
  - intros c m Hin Hr.
    destruct (execute_code_and_capture_path os code language test_cases d Hpng)
      as (png & Hv & Hp).
    exists png. rewrite Hv.
    rewrite (capture_path_raised _ _ _ _ _ _ Hp Hin Hr). reflexivity.
Qed.

Lemma timeout_gives_fixed_result_witness :
  value (execute_code (raises (TimeoutExpired "timed out after 10 seconds"))
           "while True: pass" "python" ∅)
    = inl ("", "Execution timeout", false) /\
  exists png,
    value (execute_code_and_capture (raises (TimeoutExpired "timed out after 10 seconds"))
             "int main() { for (;;); }" "cpp" [] ∅)
      = inl ("Execution timeout (>5 seconds)", png).
Proof.
  destruct (timeout_gives_fixed_result
              (raises (TimeoutExpired "timed out after 10 seconds"))
              "while True: pass" "python" "/tmp/tmpq1w2e3r4" [] ∅) as [H1 _];
    [reflexivity | intros text; exists png_stub; reflexivity |].
  destruct (timeout_gives_fixed_result
              (raises (TimeoutExpired "timed out after 10 seconds"))
              "int main() { for (;;); }" "cpp" "/tmp/tmpq1w2e3r4" [] ∅) as [_ H2];
    [reflexivity | intros text; exists png_stub; reflexivity |].
  split.
  - apply (H1 (["python3"; "/tmp/tmpq1w2e3r4/solution.py"], 10)
              "timed out after 10 seconds").
    + vm_compute. apply list_elem_of_here.
    + reflexivity.
  - apply (H2 (["g++"; "/tmp/tmpa1b2c3d4.cpp"; "-o"; "/tmp/tmpa1b2c3d4.out"], 10)
              "timed out after 10 seconds").
    + vm_compute. apply list_elem_of_here.
    + reflexivity.
Defined.

(** ** A tool chain that cannot be started *)

(** C6 fails: there is no separate outcome for a missing compiler or
    interpreter.  The [FileNotFoundError] of [subprocess.run] is caught by
    the general [except Exception] clause, which returns its message in the
    ordinary result.  [execute_code] returns the same triple for a missing
    [python3] as for a program that crashes with that message on stderr, and
    [execute_code_and_capture] the same pair as for any other exception
    with that message. *)
Lemma missing_toolchain_is_not_distinguished :
  value (execute_code
           (raises (FileNotFoundError "[Errno 2] No such file or directory: 'python3'"))
           "print(1)" "python" ∅)
    = inl ("", "[Errno 2] No such file or directory: 'python3'", false) /\
  value (execute_code
           (exits 1 "" "[Errno 2] No such file or directory: 'python3'")
           "print(1)" "python" ∅)
    = inl ("", "[Errno 2] No such file or directory: 'python3'", false) /\
  value (execute_code_and_capture
           (raises (FileNotFoundError "[Errno 2] No such file or directory: 'python3'"))
           "print(1)" "python" [] ∅)
    = inl ("Execution error: [Errno 2] No such file or directory: 'python3'", png_stub) /\
  value (execute_code_and_capture
           (raises (OtherException "[Errno 2] No such file or directory: 'python3'"))
           "print(1)" "python" [] ∅)
    = inl ("Execution error: [Errno 2] No such file or directory: 'python3'", png_stub).
Proof. repeat split; vm_compute; reflexivity. Qed.

(** C6, amended.  When [subprocess.run] cannot start the compiler or the
    interpreter and raises [FileNotFoundError], the general [except] clause
    handles it: [execute_code] returns an empty stdout, the message of the
    exception as stderr and a cleared success flag, and
    [execute_code_and_capture] returns the text "Execution error: "
    followed by that message. *)
Theorem missing_toolchain_gives_generic_error
    (os : OS) (code language t : string) (test_cases : list dict) (d : gset string) :
  mkdtemp_ans os = inl t ->
  renders os ->
  (forall c m,
     c ∈ spawns (events (execute_code os code language d)) ->
     raised_with os c (FileNotFoundError m) ->
     value (execute_code os code language d) = inl ("", m, false)) /\
  (forall c m,
     c ∈ spawns (events (execute_code_and_capture os code language test_cases d)) ->
     raised_with os c (FileNotFoundError m) ->
     exists png,
       value (execute_code_and_capture os code language test_cases d)
         = inl ("Execution error: " +:+ m, png)).
Proof.
  intros Ht Hpng. split.
  - intros c m Hin Hr.
    destruct (execute_code_path os code language t d Ht) as (v & Hv & Hp).
    rewrite Hv. f_equal. exact (code_path_raised _ _ _ _ _ _ Hp Hin Hr).
  - intros c m Hin Hr.
    destruct (execute_code_and_capture_path os code language test_cases d Hpng)
      as (png & Hv & Hp).
    exists png. rewrite Hv.
    rewrite (capture_path_raised _ _ _ _ _ _ Hp Hin Hr). reflexivity.
Qed.

Lemma missing_toolchain_gives_generic_error_witness :
  value (execute_code (raises (FileNotFoundError "[Errno 2] No such file or directory: 'javac'"))
           "public class Main {}" "java" ∅)
    = inl ("", "[Errno 2] No such file or directory: 'javac'", false) /\
  exists png,
    value (execute_code_and_capture
             (raises (FileNotFoundError "[Errno 2] No such file or directory: 'javac'"))
             "public class Main {}" "java" [] ∅)
      = inl ("Execution error: [Errno 2] No such file or directory: 'javac'", png).
Proof.
  destruct (missing_toolchain_gives_generic_error
              (raises (FileNotFoundError "[Errno 2] No such file or directory: 'javac'"))
              "public class Main {}" "java" "/tmp/tmpq1w2e3r4" [] ∅) as [H1 H2];
    [reflexivity | intros text; exists png_stub; reflexivity |].
  split.
  - apply (H1 (["javac"; "/tmp/tmpq1w2e3r4/Main.java"], 10)
              "[Errno 2] No such file or directory: 'javac'").
    + vm_compute. apply list_elem_of_here.
    + reflexivity.
  - apply (H2 (["javac"; "/tmp/tmpa1b2c3d4.java"], 10)
              "[Errno 2] No such file or directory: 'javac'").
    + vm_compute. apply list_elem_of_here.
    + reflexivity.
Defined.

(** ** An unsupported language *)

(** What [execute_code] does with a language it has no branch for: nothing
    is written or spawned, and the triple carries the message. *)
Lemma execute_code_unsupported
    (os : OS) (code language t : string) (d : gset string) :
  mkdtemp_ans os = inl t ->
  supported language = false ->
  value (execute_code os code language d)
    = inl ("", "Unsupported language: " +:+ language, false) /\
  events (execute_code os code language d) = [].
Proof.
  intros Ht Hu. rewrite (execute_code_unfold _ _ _ _ _ Ht).
  rewrite try_finally_rmtree. cbn [value events].
  unfold supported, is_compiled, is_python, is_java, is_cpp in Hu.
  apply orb_false_elim in Hu as [Hpy Hu].
  apply orb_false_elim in Hu as [Hj Hc].
  unfold try_except, execute_code_try. rewrite Hpy, Hj, Hc. split; reflexivity.
Qed.

(** What [execute_code_and_capture] does with such a language: nothing is
    spawned, and the text is empty unless writing or removing the
    temporary file raised. *)
Lemma capture_unsupported
    (os : OS) (code language : string) (test_cases : list dict) (d : gset string) :
  renders os ->
  supported language = false ->
  exists text png,
    value (execute_code_and_capture os code language test_cases d) = inl (text, png) /\
    spawns (events (execute_code_and_capture os code language test_cases d)) = [] /\
    (text = "" \/ exists e, text = reported e).
Proof.
  intros Hpng Hu.
  destruct (execute_code_and_capture_path os code language test_cases d Hpng)
    as (png & Hv & Hp).
  destruct (capture_path_unsupported _ _ _ _ Hp Hu) as [Hs Ht].
  exists (output_text_of (value (capture_try os code language d))), png.
  split; [exact Hv|]. split; [exact Hs|].
  destruct Ht as [-> | [e ->]]; [left; reflexivity | right; exists e; reflexivity].
Qed.

(** C7 at its failing input: for the language "ruby",
    [execute_code_and_capture] writes the code to a [.txt] file, runs
    nothing, removes the file and returns the empty text that
    [output_text] was initialised with, which is what a Python program
    that prints nothing and exits with code 0 returns; [execute_code]
    returns the message "Unsupported language: ruby" and a cleared flag. *)
Theorem capture_unsupported_language_is_silent :
  value (execute_code_and_capture (exits 0 "" "") "puts 1" "ruby" [] ∅)
    = inl ("", png_stub) /\
  events (execute_code_and_capture (exits 0 "" "") "puts 1" "ruby" [] ∅)
    = [Wrote "/tmp/tmpa1b2c3d4.txt" "puts 1"] /\
  value (execute_code_and_capture (exits 0 "" "") "pass" "python" [] ∅)
    = inl ("", png_stub) /\
  value (execute_code (exits 0 "" "") "puts 1" "ruby" ∅)
    = inl ("", "Unsupported language: ruby", false).
Proof. repeat split; vm_compute; reflexivity. Qed.

(** ** The submission check *)




(** ** The names of C++ *)

Lemma cpp_branch (language : string) :
  is_cpp language = true ->
  String.eqb (Py.lower language) "python" = false /\
  String.eqb (Py.lower language) "java" = false /\
  default ".txt" (ext_map !! Py.lower language) = ".cpp".
Proof.
  unfold is_cpp. intros H. apply orb_true_iff in H as [H | H];
    apply String.eqb_eq in H; rewrite H; repeat split; reflexivity.
Qed.

(** Every spelling that lower-cases to "c++" or "cpp" runs the same code. *)
Lemma cpp_names_alike
    (os : OS) (code l1 l2 : string) (d : gset string) :
  is_cpp l1 = true -> is_cpp l2 = true ->
  execute_code os code l1 d = execute_code os code l2 d /\
  try_except (capture_try os code l1) capture_except d
    = try_except (capture_try os code l2) capture_except d.
Proof.
  intros H1 H2.
  destruct (cpp_branch l1 H1) as (Hp1 & Hj1 & He1).
  destruct (cpp_branch l2 H2) as (Hp2 & Hj2 & He2).
  unfold is_cpp in H1, H2. split.
  - unfold execute_code, execute_code_try. rewrite Hp1, Hj1, H1, Hp2, Hj2, H2.
    reflexivity.
  - unfold capture_try, capture_run, capture_cleanup.
    rewrite He1, He2, Hp1, Hj1, H1, Hp2, Hj2, H2. reflexivity.
Qed.

(** C9.  The names "C++", "cpp" and "c++" take the same branch of both
    functions: the source file gets the extension [.cpp], and the same
    compile command and run command are spawned, so the result, the files
    left on disk and the spawned commands of [execute_code] and of the
    [try] statement of [execute_code_and_capture] are the same for the
    three names. *)
Theorem cpp_names_resolve_alike
    (os : OS) (code : string) (test_cases : list dict) (d : gset string) :
  (execute_code os code "C++" d = execute_code os code "cpp" d /\
   execute_code os code "cpp" d = execute_code os code "c++" d) /\
  (try_except (capture_try os code "C++") capture_except d
     = try_except (capture_try os code "cpp") capture_except d /\
   try_except (capture_try os code "cpp") capture_except d
     = try_except (capture_try os code "c++") capture_except d) /\
  (default ".txt" (ext_map !! Py.lower "C++") = ".cpp" /\
   default ".txt" (ext_map !! Py.lower "cpp") = ".cpp" /\
   default ".txt" (ext_map !! Py.lower "c++") = ".cpp") /\
  execute_code_and_capture os code "C++" test_cases d
    = execute_code_and_capture os code "c++" test_cases d.
Proof.
  split; [| split; [| split]].
  - split; apply cpp_names_alike; reflexivity.
  - split; apply cpp_names_alike; reflexivity.
  - repeat split; reflexivity.
  - unfold execute_code_and_capture, bind.
    rewrite (proj2 (cpp_names_alike os code "C++" "c++" d eq_refl eq_refl)).
    reflexivity.
Qed.

(** ** An error of the remote service *)

(** C10.  When listing the submissions raises [HttpError],
    [check_submission_status] catches it and returns [(False, None)], which
    is what it returns when the service lists no submission; nothing is
    raised, and [detect] skips the assignment for want of a submission id,
    whether skipping of submitted work is on or off. *)
Theorem http_error_skips_assignment
    (os os' : OS) (skip_submitted : bool) (course_id assignment_id msg : string)
    (d : gset string) :
  list_ans os course_id assignment_id = inr (HttpError msg) ->
  list_ans os' course_id assignment_id = inl (Some []) ->
  value (check_submission_status os course_id assignment_id d) = inl (false, None) /\
  value (check_submission_status os course_id assignment_id d)
    = value (check_submission_status os' course_id assignment_id d) /\
  value (detect_gate os skip_submitted course_id assignment_id d)
    = inl SkipNoSubmissionId.
Proof.
  intros He Hn.
  unfold detect_gate, check_submission_status, try_except, bind, list_submissions.
  cbn. rewrite He, Hn. cbn. repeat split; reflexivity.
Qed.

Lemma http_error_skips_assignment_witness :
  value (check_submission_status
           (lists (inr (HttpError "<HttpError 403 The caller does not have permission>")))
           "course" "work" ∅)
    = inl (false, None) /\
  value (detect_gate
           (lists (inr (HttpError "<HttpError 403 The caller does not have permission>")))
           false "course" "work" ∅)
    = inl SkipNoSubmissionId.
Proof.
  destruct (http_error_skips_assignment
              (lists (inr (HttpError "<HttpError 403 The caller does not have permission>")))
              (lists (inl (Some []))) false "course" "work"
              "<HttpError 403 The caller does not have permission>" ∅)
    as (H1 & _ & H3); [reflexivity | reflexivity |].
  split; assumption.
Defined.

(** * Around the harness *)

(** ** The selection of coding assignments *)

Lemma detect_loop_filter (acc l : list dict) :
  fold_left
    (fun coding_assignments work =>
       if submit.looks_like_coding work
       then coding_assignments ++ [work]
       else coding_assignments)
    l acc
  = acc ++ List.filter submit.looks_like_coding l.
Proof.
  revert acc. induction l as [|w l IH]; intros acc; cbn.
  - symmetry. apply app_nil_r.
  - rewrite IH. destruct (submit.looks_like_coding w); [|reflexivity].
    rewrite <- app_assoc. reflexivity.
Qed.

Lemma detect_as_filter (l : list dict) :
  submit.detect_coding_assignments l = List.filter submit.looks_like_coding l.
Proof. unfold submit.detect_coding_assignments. apply detect_loop_filter. Qed.

(** X1.  [detect_coding_assignments] returns the input list with the
    works that fail the keyword test left out: the works that pass, each
    as often as it was listed and in the order of the input, and nothing
    else. *)
Theorem detect_selects_in_order (l : list dict) :
  submit.detect_coding_assignments l = List.filter submit.looks_like_coding l /\
  sublist (submit.detect_coding_assignments l) l /\
  forall work,
    work ∈ submit.detect_coding_assignments l <->
    work ∈ l /\ submit.looks_like_coding work = true.
Proof.
  rewrite detect_as_filter. split; [reflexivity|]. split.
  - induction l as [|w l IH]; cbn; [constructor|].
    destruct (submit.looks_like_coding w); constructor; exact IH.
  - intros work. rewrite !list_elem_of_In, filter_In. reflexivity.
Qed.

(** X2.  Selecting is idempotent and goes through concatenation: the
    selection of two pages of course work is the selection of the first
    followed by the selection of the second. *)
Theorem detect_idempotent_and_additive (l1 l2 : list dict) :
  submit.detect_coding_assignments (submit.detect_coding_assignments l1)
    = submit.detect_coding_assignments l1 /\
  submit.detect_coding_assignments (l1 ++ l2)
    = submit.detect_coding_assignments l1 ++ submit.detect_coding_assignments l2.
Proof.
  rewrite !detect_as_filter. split.
  - induction l1 as [|w l IH]; cbn; [reflexivity|].
    destruct (submit.looks_like_coding w) eqn:Hw; cbn; rewrite ?Hw, IH; reflexivity.
  - apply List.filter_app.
Qed.

Lemma str_in_here (needle hay : string) :
  String.prefix needle hay = true -> PyStr.str_in needle hay = true.
Proof. intros H. destruct hay; cbn in *; rewrite H; reflexivity. Qed.

Lemma str_in_app_r (needle a b : string) :
  PyStr.str_in needle b = true -> PyStr.str_in needle (a +:+ b) = true.
Proof.
  intros H. induction a as [|c a IH]; [exact H|].
  change (String c a +:+ b) with (String c (a +:+ b)).
  cbn [PyStr.str_in]. rewrite IH. apply orb_true_r.
Qed.

Lemma prefix_app (needle a b : string) :
  String.prefix needle a = true -> String.prefix needle (a +:+ b) = true.
Proof.
  revert a. induction needle as [|c n IH]; intros a H;
    [destruct (a +:+ b); reflexivity|].
  destruct a as [|c' a]; [discriminate H|].
  change (String c' a +:+ b) with (String c' (a +:+ b)).
  cbn [String.prefix] in *.
  destruct (ascii_dec c c'); [apply IH; exact H | discriminate H].
Qed.

Lemma str_in_app_l (needle a b : string) :
  PyStr.str_in needle a = true -> PyStr.str_in needle (a +:+ b) = true.
Proof.
  induction a as [|c a IH]; intros H.
  - cbn [PyStr.str_in] in H. rewrite orb_false_r in H. apply str_in_here.
    apply (prefix_app needle EmptyString b H).
  - cbn [PyStr.str_in] in H.
    change (String c a +:+ b) with (String c (a +:+ b)).
    cbn [PyStr.str_in].
    apply orb_true_iff in H as [H | H].
    + change (String c (a +:+ b)) with (String c a +:+ b).
      rewrite (prefix_app _ _ _ H). reflexivity.
    + rewrite (IH H). apply orb_true_r.
Qed.

Lemma prefix_one (c a : ascii) (s : string) :
  String.prefix (String c EmptyString) (String a s) = true -> a = c.
Proof.
  cbn [String.prefix]. destruct (ascii_dec c a) as [->|]; [reflexivity | discriminate].
Qed.

Lemma prefix_one_here (c : ascii) (s : string) :
  String.prefix (String c EmptyString) (String c s) = true.
Proof.
  cbn [String.prefix]. destruct (ascii_dec c c); [destruct s; reflexivity | contradiction].
Qed.

(** A "c" or a "C" anywhere in a text leaves a "c" in its lower case. *)
Lemma letter_c_lower (s : string) :
  (PyStr.str_in "c" s || PyStr.str_in "C" s)%bool = true ->
  PyStr.str_in "c" (Py.lower s) = true.
Proof.
  induction s as [|a s IH]; [discriminate|].
  change (Py.lower (String a s)) with (String (Py.lower_char a) (Py.lower s)).
  cbn [PyStr.str_in]. intros H.
  destruct (String.prefix "c" (String a s)) eqn:Hc.
  { apply prefix_one in Hc. subst a.
    change (Py.lower_char "c") with "c"%char. rewrite prefix_one_here. reflexivity. }
  destruct (String.prefix "C" (String a s)) eqn:HC.
  { apply prefix_one in HC. subst a.
    change (Py.lower_char "C") with "c"%char. rewrite prefix_one_here. reflexivity. }
  rewrite IH; [apply orb_true_r | exact H].
Qed.

(** X3.  The language list holds the one-letter name "c", and the test is
    a substring test: every work with a letter c, small or capital, in its
    title or in its description is selected as a coding assignment. *)
Theorem letter_c_is_enough (l : list dict) (work : dict) :
  work ∈ l ->
  let title := default "" (work !! "title") in
  let description := default "" (work !! "description") in
  (PyStr.str_in "c" title || PyStr.str_in "C" title ||
   PyStr.str_in "c" description || PyStr.str_in "C" description)%bool = true ->
  work ∈ submit.detect_coding_assignments l.
Proof.
  intros Hin title description H.
  rewrite detect_as_filter. apply list_elem_of_In, filter_In.
  split; [apply list_elem_of_In; exact Hin|].
  unfold submit.looks_like_coding. fold title. fold description.
  apply orb_true_iff. right.
  assert (Hc : PyStr.str_in "c" (Py.lower title +:+ " " +:+ Py.lower description) = true).
  { rewrite <- !orb_assoc in H. apply orb_true_iff in H as [H | H].
    - apply str_in_app_l, letter_c_lower. rewrite H. reflexivity.
    - apply orb_true_iff in H as [H | H].
      + apply str_in_app_l, letter_c_lower. rewrite H. apply orb_true_r.
      + apply str_in_app_r, str_in_app_r, letter_c_lower. exact H. }
  unfold PyStr.any_in, submit.CODING_LANGUAGES. cbn [existsb].
  rewrite Hc. rewrite !orb_true_r. reflexivity.
Qed.

Lemma letter_c_is_enough_witness :
  {[ "title" := "Read Chapter 3" ]}
    ∈ submit.detect_coding_assignments
        [ {[ "title" := "Essay" ]}; {[ "title" := "Read Chapter 3" ]} ].
Proof.
  apply (letter_c_is_enough
           [ {[ "title" := "Essay" ]}; {[ "title" := "Read Chapter 3" ]} ]
           {[ "title" := "Read Chapter 3" ]}).
  - apply list_elem_of_further, list_elem_of_here.
  - reflexivity.
Defined.

(** ** Attaching and turning in *)

(** Case analysis on the answers of the remote services. *)
Ltac ask_remote :=
  repeat (cbn;
          match goal with
          | |- context [match media_ans ?rm ?p with _ => _ end] =>
              destruct (media_ans rm p) eqn:?
          | |- context [create_ans ?rm ?n ?p] =>
              destruct (create_ans rm n p) eqn:?
          | |- context [submissions_ans ?rm ?c ?w] =>
              destruct (submissions_ans rm c w) eqn:?
          | |- context [match modify_ans ?rm ?c ?w ?s ?f with _ => _ end] =>
              destruct (modify_ans rm c w s f) eqn:?
          | |- context [match turnin_ans ?rm ?c ?w ?s with _ => _ end] =>
              destruct (turnin_ans rm c w s) eqn:?
          | |- context [match ?e with
                        | TimeoutExpired _ => _ | FileNotFoundError _ => _
                        | HttpError _ => _ | OtherException _ => _ end] =>
              is_var e; destruct e
          end).

(** X4.  [submit_assignment] asks for the turn-in only after the call
    that attaches the file has succeeded, and makes no other call; an
    [HttpError] of either call is caught and never reaches the caller. *)
Theorem submit_assignment_attaches_then_turns_in
    (rm : Remote) (course_id coursework_id submission_id : string)
    (drive_file_id : option string) :
  let attach := ModifyAttachments course_id coursework_id submission_id drive_file_id in
  let turn_in := TurnIn course_id coursework_id submission_id in
  let r := submit_remote.submit_assignment rm course_id coursework_id
             submission_id drive_file_id in
  (modify_ans rm course_id coursework_id submission_id drive_file_id = None /\
   r.2 = [attach; turn_in]
   \/
   modify_ans rm course_id coursework_id submission_id drive_file_id <> None /\
   r.2 = [attach]) /\
  (forall msg, r.1 <> inr (HttpError msg)).
Proof.
  cbv zeta. unfold submit_remote.submit_assignment, except_http, rbind, rcall, rret.
  ask_remote.
  all: split; [ first [ left; split; [reflexivity | reflexivity]
                      | right; split; [discriminate | reflexivity] ]
              | intros ?; discriminate ].
Qed.

(** X5.  In [detect], once the PDF has reached Drive with a non-empty
    file id, the assignment is counted as submitted even when attaching
    the file or turning in failed with an [HttpError], because
    [submit_assignment] swallows that error and returns nothing. *)
Theorem submitted_is_counted_despite_http_errors
    (rm : Remote) (pdf_path pdf_filename course_id assignment_id submission_id id : string)
    (total_submitted : Z) :
  media_ans rm pdf_path = None ->
  create_ans rm pdf_filename pdf_path = inl (Some id) ->
  id <> "" ->
  (forall e, modify_ans rm course_id assignment_id submission_id (Some id) = Some e ->
             exists msg, e = HttpError msg) ->
  (forall e, turnin_ans rm course_id assignment_id submission_id = Some e ->
             exists msg, e = HttpError msg) ->
  (submit_remote.detect_submit rm true pdf_path pdf_filename
     course_id assignment_id submission_id total_submitted).1
  = inl (total_submitted + 1).
Proof.
  intros Hm Hc Hid Hma Hta.
  unfold submit_remote.detect_submit, submit_remote.upload_to_drive,
    submit_remote.submit_assignment, except_http, rbind, rcall, rask, rret.
  rewrite Hm, Hc. cbn. apply String.eqb_neq in Hid. rewrite Hid. cbn.
  destruct (modify_ans rm course_id assignment_id submission_id (Some id))
    as [e|] eqn:Hmo.
  - destruct (Hma e eq_refl) as [msg ->]. reflexivity.
  - cbn. destruct (turnin_ans rm course_id assignment_id submission_id) as [e|] eqn:Hto.
    + destruct (Hta e eq_refl) as [msg ->]. reflexivity.
    + reflexivity.
Qed.

Lemma submitted_is_counted_despite_http_errors_witness :
  (submit_remote.detect_submit turn_in_refused true "./solutions/Lab_1_SOLUTION.pdf"
     "Lab_1_SOLUTION.pdf" "course" "work" "Cg4I" 0).1
  = inl 1.
Proof.
  apply (submitted_is_counted_despite_http_errors turn_in_refused
           "./solutions/Lab_1_SOLUTION.pdf" "Lab_1_SOLUTION.pdf"
           "course" "work" "Cg4I" "1AbCdEf" 0).
  - reflexivity.
  - reflexivity.
  - discriminate.
  - discriminate.
  - intros e He. injection He as <-. eexists. reflexivity.
Defined.

(** X6.  When the upload to Drive gives no usable file id (an
    [HttpError], or an answer without a non-empty id), [detect] makes no
    call to attach or turn in, and the counter of submitted assignments
    keeps its value. *)
Theorem failed_upload_submits_nothing
    (rm : Remote) (pdf_path pdf_filename course_id assignment_id submission_id : string)
    (total_submitted : Z) (drive_file_id : option string) :
  (submit_remote.upload_to_drive rm pdf_path pdf_filename).1 = inl drive_file_id ->
  Py.falsy drive_file_id = true ->
  let r := submit_remote.detect_submit rm true pdf_path pdf_filename
             course_id assignment_id submission_id total_submitted in
  r.1 = inl total_submitted /\
  r.2 = (submit_remote.upload_to_drive rm pdf_path pdf_filename).2 /\
  Forall (fun c => c = MediaFileUpload pdf_path \/ c = DriveCreate pdf_filename pdf_path) r.2.
Proof.
  intros Hu Hf. cbv zeta. unfold submit_remote.detect_submit, rbind.
  destruct (submit_remote.upload_to_drive rm pdf_path pdf_filename) as [v log] eqn:Hup.
  cbn in Hu. subst v. rewrite Hf. cbn. rewrite app_nil_r.
  split; [reflexivity|]. split; [reflexivity|].
  revert Hup.
  unfold submit_remote.upload_to_drive, except_http, rbind, rcall, rask, rret.
  ask_remote.
  all: intros Hup; first [ discriminate Hup | inversion Hup; subst ].
  all: repeat (apply Forall_cons; split; [auto|]); apply Forall_nil; exact I.
Qed.

Lemma failed_upload_submits_nothing_witness :
  submit_remote.detect_submit drive_refuses true "./solutions/Lab_1_SOLUTION.pdf"
    "Lab_1_SOLUTION.pdf" "course" "work" "Cg4I" 0
  = (inl 0,
     [MediaFileUpload "./solutions/Lab_1_SOLUTION.pdf";
      DriveCreate "Lab_1_SOLUTION.pdf" "./solutions/Lab_1_SOLUTION.pdf"]).
Proof.
  destruct (failed_upload_submits_nothing drive_refuses
              "./solutions/Lab_1_SOLUTION.pdf" "Lab_1_SOLUTION.pdf"
              "course" "work" "Cg4I" 0 None) as (Hv & Hl & _);
    [reflexivity | reflexivity |].
  destruct (submit_remote.detect_submit drive_refuses true
              "./solutions/Lab_1_SOLUTION.pdf" "Lab_1_SOLUTION.pdf"
              "course" "work" "Cg4I" 0) as [v l].
  cbn in Hv, Hl. rewrite Hv, Hl. reflexivity.
Defined.

(** X7.  [upload_to_classroom] returns [True] exactly when all five calls
    succeeded: reading the PDF, creating the Drive file, listing the
    submissions with a first record that has an id, attaching the Drive
    file to that record and turning it in; the calls are then made in this
    order.  The state of the record is not looked at: a submission already
    turned in is turned in again. *)
Theorem upload_to_classroom_true
    (rm : Remote) (course_id coursework_id pdf_path : string) :
  let r := submit_remote.upload_to_classroom rm course_id coursework_id pdf_path in
  r.1 = inl true <->
  exists file_id submissions submission rest submission_id,
    media_ans rm pdf_path = None /\
    create_ans rm (basename pdf_path) pdf_path = inl file_id /\
    submissions_ans rm course_id coursework_id = inl submissions /\
    default [] submissions = submission :: rest /\
    submission !! "id" = Some submission_id /\
    modify_ans rm course_id coursework_id submission_id file_id = None /\
    turnin_ans rm course_id coursework_id submission_id = None /\
    r.2 = [MediaFileUpload pdf_path;
           DriveCreate (basename pdf_path) pdf_path;
           ListSubmissions course_id coursework_id;
           ModifyAttachments course_id coursework_id submission_id file_id;
           TurnIn course_id coursework_id submission_id].
Proof.
  cbv zeta. split.
  - unfold submit_remote.upload_to_classroom, except_http, rbind, rcall, rask,
      rret, rraise.
    destruct (media_ans rm pdf_path) as [e|] eqn:Hm.
    { destruct e; cbn; discriminate. }
    destruct (create_ans rm (basename pdf_path) pdf_path) as [file_id|e] eqn:Hc.
    2: { destruct e; cbn; discriminate. }
    destruct (submissions_ans rm course_id coursework_id) as [subs|e] eqn:Hs.
    2: { destruct e; cbn; discriminate. }
    destruct subs as [[|submission rest]|]; cbn; try discriminate.
    destruct (submission !! "id") as [sid|] eqn:Hi; cbn; [|discriminate].
    destruct (modify_ans rm course_id coursework_id sid file_id) as [e|] eqn:Hmo.
    { destruct e; cbn; discriminate. }
    destruct (turnin_ans rm course_id coursework_id sid) as [e|] eqn:Ht.
    { destruct e; cbn; discriminate. }
    intros _. exists file_id, (Some (submission :: rest)), submission, rest, sid.
    repeat (split; [assumption || reflexivity|]). reflexivity.
  - intros (file_id & subs & submission & rest & sid & Hm & Hc & Hs & Hd & Hi & Hmo & Ht & _).
    unfold submit_remote.upload_to_classroom, except_http, rbind, rcall, rask,
      rret, rraise.
    rewrite Hm, Hc, Hs.
    destruct subs as [[|? ?]|]; cbn in Hd; try discriminate Hd.
    injection Hd as -> ->. cbn. rewrite Hi. cbn. rewrite Hmo, Ht. reflexivity.
Qed.

Lemma upload_to_classroom_true_witness :
  (submit_remote.upload_to_classroom already_turned_in "course" "work"
     "solutions/solution_1_2.pdf").1 = inl true.
Proof.
  apply (upload_to_classroom_true already_turned_in "course" "work"
           "solutions/solution_1_2.pdf").
  exists (Some "1AbCdEf"),
         (Some [ {[ "id" := "Cg4I"; "state" := "TURNED_IN" ]} ]),
         {[ "id" := "Cg4I"; "state" := "TURNED_IN" ]}, [], "Cg4I".
  repeat split; reflexivity.
Defined.

(** X8.  When the service lists no submission for the course work,
    [upload_to_classroom] returns [False] after the PDF has already been
    created on Drive: nothing is attached or turned in, and the Drive file
    stays. *)
Theorem upload_without_submission_leaves_drive_file
    (rm : Remote) (course_id coursework_id pdf_path : string)
    (file_id : option string) (submissions : option (list dict)) :
  media_ans rm pdf_path = None ->
  create_ans rm (basename pdf_path) pdf_path = inl file_id ->
  submissions_ans rm course_id coursework_id = inl submissions ->
  default [] submissions = [] ->
  submit_remote.upload_to_classroom rm course_id coursework_id pdf_path
  = (inl false,
     [MediaFileUpload pdf_path;
      DriveCreate (basename pdf_path) pdf_path;
      ListSubmissions course_id coursework_id]).
Proof.
  intros Hm Hc Hs Hd.
  unfold submit_remote.upload_to_classroom, except_http, rbind, rcall, rask, rret.
  rewrite Hm, Hc, Hs.
  destruct submissions as [[|? ?]|]; cbn in Hd; try discriminate Hd; reflexivity.
Qed.

Lemma upload_without_submission_leaves_drive_file_witness :
  submit_remote.upload_to_classroom (lists_remote (inl None)) "course" "work"
    "/home/me/solutions/solution_1_2.pdf"
  = (inl false,
     [MediaFileUpload "/home/me/solutions/solution_1_2.pdf";
      DriveCreate "solution_1_2.pdf" "/home/me/solutions/solution_1_2.pdf";
      ListSubmissions "course" "work"]).
Proof.
  apply (upload_without_submission_leaves_drive_file (lists_remote (inl None))
           "course" "work" "/home/me/solutions/solution_1_2.pdf"
           (Some "1AbCdEf") None); reflexivity.
Defined.

(** X9.  A first submission record without the key ['id'] makes
    [upload_to_classroom] raise [KeyError]; the [except HttpError] clause
    does not catch it, and the PDF is on Drive by then. *)
Theorem upload_with_record_without_id_raises
    (rm : Remote) (course_id coursework_id pdf_path : string)
    (file_id : option string) (submissions : option (list dict))
    (submission : dict) (rest : list dict) :
  media_ans rm pdf_path = None ->
  create_ans rm (basename pdf_path) pdf_path = inl file_id ->
  submissions_ans rm course_id coursework_id = inl submissions ->
  default [] submissions = submission :: rest ->
  submission !! "id" = None ->
  submit_remote.upload_to_classroom rm course_id coursework_id pdf_path
  = (inr (OtherException "'id'"),
     [MediaFileUpload pdf_path;
      DriveCreate (basename pdf_path) pdf_path;
      ListSubmissions course_id coursework_id]).
Proof.
  intros Hm Hc Hs Hd Hi.
  unfold submit_remote.upload_to_classroom, except_http, rbind, rcall, rask,
    rret, rraise.
  rewrite Hm, Hc, Hs.
  destruct submissions as [[|? ?]|]; cbn in Hd; try discriminate Hd.
  injection Hd as -> ->. cbn. rewrite Hi. reflexivity.
Qed.

Lemma upload_with_record_without_id_raises_witness :
  submit_remote.upload_to_classroom
    (lists_remote (inl (Some [ {[ "state" := "CREATED" ]} ]))) "course" "work"
    "solution.pdf"
  = (inr (OtherException "'id'"),
     [MediaFileUpload "solution.pdf"; DriveCreate "solution.pdf" "solution.pdf";
      ListSubmissions "course" "work"]).
Proof.
  apply (upload_with_record_without_id_raises
           (lists_remote (inl (Some [ {[ "state" := "CREATED" ]} ])))
           "course" "work" "solution.pdf" (Some "1AbCdEf")
           (Some [ {[ "state" := "CREATED" ]} ]) {[ "state" := "CREATED" ]} []);
    reflexivity.
Defined.

(** ** The output that reaches the screenshot *)

(** What the success flag of [execute_code] says about the spawned
    commands, and where the returned stdout comes from. *)
Lemma code_path_flag (os : OS) (language : string) calls out err ok :
  code_path os language calls (out, err, ok) ->
  (ok = true /\
   exists c r, last calls = Some c /\ exited_with os c r /\ out = stdout r)
  \/
  (ok = false /\ (calls = [] \/ ~ Forall (exited_zero os) calls)).
Proof.
  intros Hp. remember (out, err, ok) as v eqn:Hv.
  destruct Hp.
  - injection Hv as _ _ <-. right. auto.
  - right. split; [|auto].
    destruct e; injection Hv as _ _ <-; reflexivity.
  - right. split; [destruct e; injection Hv as _ _ <-; reflexivity|].
    right. intros HF. apply Forall_cons in HF as [(r & Hx & _) _]. same_call.
  - injection Hv as <- <- <-.
    destruct (Z.eqb_spec (returncode r) 0) as [Hz | Hz].
    + left. split; [reflexivity|]. exists c, r. auto.
    + right. split; [reflexivity|]. right. intros HF.
      apply Forall_cons in HF as [(r' & Hx & Hz') _]. same_call. contradiction.
  - injection Hv as _ _ <-. right. split; [reflexivity|]. right. intros HF.
    apply Forall_cons in HF as [(r' & Hx & Hz') _]. same_call. contradiction.
  - right. split; [destruct e; injection Hv as _ _ <-; reflexivity|].
    right. intros HF. apply Forall_cons in HF as [_ HF].
    apply Forall_cons in HF as [(r & Hx & _) _]. same_call.
  - injection Hv as <- <- <-.
    destruct (Z.eqb_spec (returncode r) 0) as [Hz | Hz].
    + left. split; [reflexivity|]. exists c', r. auto.
    + right. split; [reflexivity|]. right. intros HF.
      apply Forall_cons in HF as [_ HF].
      apply Forall_cons in HF as [(r' & Hx & Hz') _]. same_call. contradiction.
Qed.

(** X10.  In [solve_assignment] the output shown in the screenshot is the
    stdout of the last spawned process when every spawned process exited
    with code 0; in every other case (nothing spawned, a compile error, a
    failing run, a timeout, any exception, an unsupported language) it is
    the example output that came with the generated solution, and neither
    the stderr of the run nor the error message is shown. *)
Theorem shown_output_is_stdout_or_example
    (os : OS) (solution : dict) (language code t : string) (d : gset string) :
  mkdtemp_ans os = inl t ->
  solution !! "code" = Some code ->
  let o := assignment_solver.solve_assignment_output os solution language d in
  exists shown,
    value o = inl shown /\
    (spawns (events o) <> [] -> Forall (exited_zero os) (spawns (events o)) ->
     exists c r, last (spawns (events o)) = Some c /\ exited_with os c r /\
                 shown = stdout r) /\
    (spawns (events o) = [] \/ ~ Forall (exited_zero os) (spawns (events o)) ->
     shown = default "" (solution !! "example_output")).
Proof.
  intros Ht Hc. cbv zeta.
  unfold assignment_solver.solve_assignment_output. rewrite Hc. unfold bind.
  destruct (execute_code_path os code language t d Ht) as ([[out err] ok] & Hv & Hp).
  destruct (execute_code os code language d) as [v d1 ev1].
  cbn in Hv, Hp. subst v.
  destruct (code_path_flag _ _ _ _ _ _ Hp) as [[-> (c & r & Hl & Hx & ->)] | [-> Hn]].
  - cbn. rewrite app_nil_r. exists (stdout r). split; [reflexivity|]. split.
    + intros _ _. exists c, r. auto.
    + intros [He | Hf].
      * rewrite He in Hl. discriminate.
      * destruct Hf. exact (proj2 (proj2 (code_path_success _ _ _ _ _ Hp))).
  - cbn. rewrite app_nil_r. eexists. split; [reflexivity|]. split.
    + intros Hne HF. destruct Hn as [He | Hf]; contradiction.
    + reflexivity.
Qed.

Lemma shown_output_is_stdout_or_example_witness :
  value (assignment_solver.solve_assignment_output
           (raises (TimeoutExpired "timed out after 10 seconds"))
           {[ "code" := "while True: pass"; "example_output" := "42" ]}
           "Python" ∅)
  = inl "42".
Proof.
  destruct (shown_output_is_stdout_or_example
              (raises (TimeoutExpired "timed out after 10 seconds"))
              {[ "code" := "while True: pass"; "example_output" := "42" ]}
              "Python" "while True: pass" "/tmp/tmpq1w2e3r4" ∅)
    as (shown & Hv & _ & He); [reflexivity | reflexivity |].
  rewrite Hv. f_equal. apply He. right. intros HF.
  vm_compute in HF. apply Forall_cons in HF as [(r & Hx & _) _].
  discriminate Hx.
Defined.

(** ** What the harness leaves on disk, and how long it may run *)

(** Splitting the hypothesis on the spawned commands into one fact for
    each, and the tests of the disk into facts about sets. *)
Ltac ask_children :=
  repeat match goal with
         | H : Forall _ [] |- _ => clear H
         | H : Forall _ (_ :: _) |- _ =>
             let H1 := fresh "Hkeep" in
             apply Forall_cons in H as [H1 H]; unfold keeps in H1; cbn in H1
         | H : bool_decide _ = false |- _ => apply bool_decide_eq_false in H
         | H : bool_decide _ = true |- _ => apply bool_decide_eq_true in H
         end.

Lemma execute_code_try_keeps
    (os : OS) (t code language q : string) (d : gset string) :
  let o := try_except (execute_code_try os t code language) execute_code_except d in
  q ∈ d ->
  Forall (keeps os q) (spawns (events o)) ->
  q ∈ disk_after o.
Proof.
  cbv zeta. intros Hq. unfold try_except, execute_code_try.
  destruct (String.eqb (Py.lower language) "python");
    [| destruct (String.eqb (Py.lower language) "java");
       [| destruct (String.eqb (Py.lower language) "c++"
                    || String.eqb (Py.lower language) "cpp")%bool]].
  4: { cbn. intros _. exact Hq. }
  all: unfold bind, write_file, subprocess_run, finish, ret.
  all: ask_world.
  all: repeat (rewrite ?execute_code_except_value; cbn).
  all: intros HF; ask_children; set_unfold; intuition congruence.
Qed.

(** X11.  [execute_code] itself removes nothing but its own temporary
    directory: a path that was on disk before the call, does not lie in
    that directory and is removed by none of the spawned processes is
    still there afterwards, on every way out. *)
Theorem execute_code_keeps_other_files
    (os : OS) (code language t q : string) (d : gset string) :
  mkdtemp_ans os = inl t ->
  q ∈ d ->
  under t q = false ->
  Forall (keeps os q) (spawns (events (execute_code os code language d))) ->
  q ∈ disk_after (execute_code os code language d).
Proof.
  intros Ht Hq Hu. rewrite (execute_code_unfold _ _ _ _ _ Ht).
  rewrite try_finally_rmtree. cbn [disk_after events]. intros HF.
  apply elem_of_filter. split; [exact Hu|].
  apply execute_code_try_keeps; [set_solver | exact HF].
Qed.

Lemma execute_code_keeps_other_files_witness :
  "/home/me/notes.txt"
    ∈ disk_after (execute_code (exits_removing "/home/me/draft.txt" 1 "" "boom")
                    "print(1)" "python"
                    {[ "/home/me/notes.txt"; "/home/me/draft.txt" ]}).
Proof.
  apply (execute_code_keeps_other_files (exits_removing "/home/me/draft.txt" 1 "" "boom")
           "print(1)" "python" "/tmp/tmpq1w2e3r4" "/home/me/notes.txt"
           {[ "/home/me/notes.txt"; "/home/me/draft.txt" ]}).
  - reflexivity.
  - apply elem_of_union_l, elem_of_singleton. reflexivity.
  - reflexivity.
  - apply Forall_forall. intros c _. unfold keeps. cbn.
    apply not_elem_of_singleton. discriminate.
Defined.

Lemma capture_try_temp_file
    (os : OS) (code language stem : string) (d : gset string) :
  mkstemp_ans os = inl stem ->
  let temp_file := stem +:+ default ".txt" (ext_map !! Py.lower language) in
  let o := capture_try os code language d in
  (forall text, value o = inl text -> temp_file ∉ disk_after o) /\
  (forall e, value o = inr e ->
             Forall (keeps os temp_file) (spawns (events o)) ->
             temp_file ∈ disk_after o).
Proof.
  intros Hs. cbv zeta. unfold capture_try.
  generalize (default ".txt" (ext_map !! Py.lower language)). intros ext.
  unfold capture_run, capture_cleanup.
  change (String.eqb (Py.lower language) "c++"
          || String.eqb (Py.lower language) "cpp")%bool with (is_cpp language).
  change (String.eqb (Py.lower language) "java") with (is_java language).
  change (String.eqb (Py.lower language) "python") with (is_python language).
  unfold bind, named_temporary_file, subprocess_run, unlink, path_exists, ret.
  rewrite Hs.
  destruct (is_python language) eqn:Hpy;
    [ rewrite (python_not_cpp _ Hpy)
    | destruct (is_java language) eqn:Hj;
      [ rewrite (java_not_cpp _ Hj) | destruct (is_cpp language) eqn:Hc ] ].
  all: ask_world.
  all: ask_disk.
  all: try congruence.
  all: split; [intros ? Hv | intros ? Hv HF]; try discriminate Hv.
  all: cbn [disk_after]; cbn in HF || idtac.
  all: ask_children; set_unfold; intuition congruence.
Qed.

(** X12.  [execute_code_and_capture] removes its temporary source file
    whenever its [try] block ends without an exception.  When a spawned
    command raises (a timeout, a tool chain that cannot be started) the
    clean-up is skipped, and the file stays on disk unless one of the
    spawned processes removed it; when writing the code to the file
    raises, the file stays as well. *)
Theorem capture_temp_file_left_after_exception
    (os : OS) (code language stem : string) (test_cases : list dict)
    (d : gset string) :
  renders os ->
  mkstemp_ans os = inl stem ->
  let temp_file := stem +:+ default ".txt" (ext_map !! Py.lower language) in
  let o := execute_code_and_capture os code language test_cases d in
  (forall text, value (capture_try os code language d) = inl text ->
                temp_file ∉ disk_after o) /\
  (forall c e, c ∈ spawns (events o) -> raised_with os c e ->
               Forall (keeps os temp_file) (spawns (events o)) ->
               temp_file ∈ disk_after o) /\
  (forall e, write_ans os temp_file = Some e -> temp_file ∈ disk_after o).
Proof.
  intros Hpng Hs. cbv zeta.
  destruct (capture_try_temp_file os code language stem d Hs) as [Hok Hex].
  cbv zeta in Hok, Hex.
  destruct (execute_code_and_capture_value os code language test_cases d Hpng)
    as (png & _ & Hsp & Hd).
  rewrite Hd, Hsp. split; [exact Hok|]. split.
  - intros c e Hin Hr HF.
    pose proof (capture_try_path os code language d) as Hp. cbv zeta in Hp.
    apply (Hex e); [|exact HF].
    exact (capture_path_raised _ _ _ _ _ _ Hp Hin Hr).
  - intros e Hw. unfold capture_try, bind, named_temporary_file.
    rewrite Hs, Hw. cbn. apply elem_of_union_r, elem_of_singleton. reflexivity.
Qed.

Lemma capture_temp_file_left_after_exception_witness :
  "/tmp/tmpa1b2c3d4.java"
    ∈ disk_after (execute_code_and_capture
                    (raises (FileNotFoundError "[Errno 2] No such file or directory: 'javac'"))
                    "class Main {}" "java" [] ∅).
Proof.
  destruct (capture_temp_file_left_after_exception
              (raises (FileNotFoundError "[Errno 2] No such file or directory: 'javac'"))
              "class Main {}" "java" "/tmp/tmpa1b2c3d4" [] ∅) as (_ & H & _).
  - intros text. exists png_stub. reflexivity.
  - reflexivity.
  - apply (H (["javac"; "/tmp/tmpa1b2c3d4.java"], 10)
             (FileNotFoundError "[Errno 2] No such file or directory: 'javac'")).
    + vm_compute. apply list_elem_of_here.
    + reflexivity.
    + apply Forall_forall. intros c _. unfold keeps. cbn. apply not_elem_of_empty.
Defined.

(** X13.  One call of [execute_code] spawns at most two processes and
    waits for them for at most 20 seconds in all (10 for each); one call
    of [execute_code_and_capture] waits for at most 15 seconds (10 for a
    compile step, 5 for a run). *)
Theorem harness_waits_are_bounded
    (os : OS) (code language : string) (test_cases : list dict) (d : gset string) :
  (length (spawns (events (execute_code os code language d))) <= 2)%nat /\
  foldr Z.add 0 (map snd (spawns (events (execute_code os code language d)))) <= 20 /\
  (length (spawns (events (execute_code_and_capture os code language test_cases d))) <= 2)%nat /\
  foldr Z.add 0
    (map snd (spawns (events (execute_code_and_capture os code language test_cases d))))
    <= 15.
Proof.
  assert (H1 : (length (spawns (events (execute_code os code language d))) <= 2)%nat /\
               foldr Z.add 0 (map snd (spawns (events (execute_code os code language d)))) <= 20).
  { destruct (mkdtemp_ans os) as [t|e] eqn:Ht.
    2: { unfold execute_code, bind, mkdtemp. rewrite Ht. cbn. split; lia. }
    rewrite (execute_code_unfold _ _ _ _ _ Ht), try_finally_rmtree. cbn [events].
    unfold try_except, execute_code_try.
    destruct (String.eqb (Py.lower language) "python");
      [| destruct (String.eqb (Py.lower language) "java");
         [| destruct (String.eqb (Py.lower language) "c++"
                      || String.eqb (Py.lower language) "cpp")%bool]].
    4: { cbn. split; lia. }
    all: unfold bind, write_file, subprocess_run, finish, ret.
    all: ask_world.
    all: repeat (rewrite ?execute_code_except_value; cbn).
    all: split; lia. }
  split; [exact (proj1 H1)|]. split; [exact (proj2 H1)|]. clear H1.
  unfold execute_code_and_capture, bind, create_output_screenshot, try_except, capture_try.
  generalize (default ".txt" (ext_map !! Py.lower language)). intros ext.
  unfold capture_run, capture_cleanup.
  change (String.eqb (Py.lower language) "c++"
          || String.eqb (Py.lower language) "cpp")%bool with (is_cpp language).
  change (String.eqb (Py.lower language) "java") with (is_java language).
  change (String.eqb (Py.lower language) "python") with (is_python language).
  unfold bind, named_temporary_file, subprocess_run, unlink, path_exists, ret.
  destruct (is_python language) eqn:Hpy;
    [ rewrite (python_not_cpp _ Hpy)
    | destruct (is_java language) eqn:Hj;
      [ rewrite (java_not_cpp _ Hj) | destruct (is_cpp language) eqn:Hc ] ].
  all: ask_world.
  all: ask_disk.
  all: try congruence.
  all: repeat (rewrite ?capture_except_value; cbn).
  all: match goal with
       | |- context [savefig_ans ?os ?t] => destruct (savefig_ans os t)
       end.
  all: cbn; split; lia.
Qed.

(** X14.  The language name is matched without regard to case: two names
    with the same lower-case form, one of which is supported, run the same
    code in [execute_code] and in the [try] statement of
    [execute_code_and_capture], with the same result, files and spawned
    commands. *)
Theorem language_name_ignores_case
    (os : OS) (code l1 l2 : string) (d : gset string) :
  Py.lower l1 = Py.lower l2 ->
  supported l1 = true ->
  execute_code os code l1 d = execute_code os code l2 d /\
  try_except (capture_try os code l1) capture_except d
    = try_except (capture_try os code l2) capture_except d.
Proof.
  intros Hl Hs. split.
  - unfold execute_code, execute_code_try. rewrite <- Hl.
    unfold supported, is_compiled, is_python, is_java, is_cpp in Hs.
    destruct (String.eqb (Py.lower l1) "python"); [reflexivity|].
    destruct (String.eqb (Py.lower l1) "java"); [reflexivity|].
    destruct (String.eqb (Py.lower l1) "c++" || String.eqb (Py.lower l1) "cpp")%bool;
      [reflexivity | discriminate Hs].
  - unfold capture_try, capture_run, capture_cleanup. rewrite <- Hl. reflexivity.
Qed.

Lemma language_name_ignores_case_witness :
  execute_code (exits 0 "hi" "") "print('hi')" "PYTHON" ∅
    = execute_code (exits 0 "hi" "") "print('hi')" "Python" ∅ /\
  try_except (capture_try (exits 0 "hi" "") "print('hi')" "PYTHON") capture_except ∅
    = try_except (capture_try (exits 0 "hi" "") "print('hi')" "Python") capture_except ∅.
Proof.
  apply (language_name_ignores_case (exits 0 "hi" "") "print('hi')" "PYTHON" "Python" ∅);
    reflexivity.
Defined.

(** ** The code screenshot *)

Lemma take_length (n : nat) (s : string) : (String.length (Py.take n s) <= n)%nat.
Proof.
  revert s. induction n as [|n IH]; intros s.
  - change (Py.take 0 s) with EmptyString. cbn. lia.
  - destruct s as [|c s].
    + change (Py.take (S n) EmptyString) with EmptyString. cbn. lia.
    + change (Py.take (S n) (String c s)) with (String c (Py.take n s)).
      cbn [String.length]. specialize (IH s). lia.
Qed.

(** The lines drawn by one loop: one call per line, twenty pixels apart,
    from [y] on, each text cut to 120 characters and coloured by [color]. *)
Lemma draw_lines_spec (color : string -> string) (lines : list string) (y : Z) :
  let r := assignment_solver.draw_lines color lines y in
  r.2 = y + 20 * Z.of_nat (length lines) /\
  length r.1 = length lines /\
  Forall (fun c =>
            y <= assignment_solver.at_y c /\
            assignment_solver.at_y c + 20 <= r.2 /\
            assignment_solver.at_x c = 60 /\
            assignment_solver.bold c = false /\
            (String.length (assignment_solver.text c) <= 120)%nat /\
            exists line, In line lines /\ assignment_solver.fill c = color line)
         r.1.
Proof.
  revert y. induction lines as [|line rest IH]; intros y; cbn.
  - split; [lia|]. split; [reflexivity|]. constructor.
  - specialize (IH (y + assignment_solver.line_height)).
    destruct (assignment_solver.draw_lines color rest (y + assignment_solver.line_height))
      as [calls y'].
    cbn in *. unfold assignment_solver.line_height in *.
    destruct IH as (Hy & Hl & HF). split; [lia|]. split; [lia|].
    constructor.
    + cbn. repeat split; try lia; [apply take_length | eauto].
    + eapply Forall_impl; [exact HF|]. cbn.
      intros c (H1 & H2 & H3 & H4 & H5 & line' & H6 & H7).
      repeat split; try lia; try assumption. eauto.
Qed.

Lemma firstn_length_Z {A} (n : nat) (l : list A) :
  Z.of_nat (length (firstn n l)) <= Z.of_nat n /\
  Z.of_nat (length (firstn n l)) <= Z.of_nat (length l).
Proof. rewrite length_firstn. lia. Qed.

(** X15.  In the picture of [create_code_screenshot] every text starts
    inside the picture and has a full line of twenty pixels above the
    bottom edge, however long the code and the output are; the picture is
    at least 800 pixels high. *)
Theorem screenshot_texts_inside_picture
    (code output language problem_num : string) :
  let r := assignment_solver.create_code_screenshot code output language problem_num in
  800 <= r.1 /\
  Forall (fun c =>
            0 <= assignment_solver.at_x c < assignment_solver.width /\
            0 <= assignment_solver.at_y c /\
            assignment_solver.at_y c + assignment_solver.line_height <= r.1)
         r.2.
Proof.
  cbv zeta. unfold assignment_solver.create_code_screenshot.
  set (code_lines := PyStr.split_lines code).
  set (output_lines := if PyStr.truthy output then PyStr.split_lines output else [""]).
  unfold assignment_solver.padding, assignment_solver.line_height,
    assignment_solver.width.
  pose proof (draw_lines_spec assignment_solver.line_color (firstn 50 code_lines)
                (40 + 40 + 30)) as H3.
  destruct (assignment_solver.draw_lines assignment_solver.line_color
              (firstn 50 code_lines) (40 + 40 + 30)) as [d3 y3].
  cbn [fst snd] in H3. destruct H3 as (Hy3 & _ & HF3).
  pose proof (firstn_length_Z 50 code_lines) as [Hc1 Hc2].
  pose proof (firstn_length_Z 30 output_lines) as [Ho1 Ho2].
  destruct (50 <? length code_lines)%nat eqn:Hn;
    [apply Nat.ltb_lt in Hn | apply Nat.ltb_ge in Hn].
  all: destruct (PyStr.truthy output) eqn:Hout.
  all: try match goal with
           | |- context [assignment_solver.draw_lines ?c ?l ?y] =>
               pose proof (draw_lines_spec c l y) as H5;
               destruct (assignment_solver.draw_lines c l y) as [d52 y5];
               cbn [fst snd] in H5; destruct H5 as (Hy5 & _ & HF5)
           end.
  all: try (destruct (30 <? length output_lines)%nat eqn:Hm;
            [apply Nat.ltb_lt in Hm | apply Nat.ltb_ge in Hm]).
  all: cbn [fst snd]; split; [lia|].
  all: repeat rewrite Forall_app; repeat rewrite Forall_cons; cbn.
  all: repeat split; try lia; try apply Forall_nil; try exact I.
  all: try (eapply Forall_impl; [exact HF3|]; cbn; intros c (H1 & H2 & H3 & _); lia).
  all: try (eapply Forall_impl; [exact HF5|]; cbn; intros c (H1 & H2 & H3 & _); lia).
Qed.

Lemma line_color_not_grey (line : string) :
  assignment_solver.line_color line <> "#858585".
Proof.
  unfold assignment_solver.line_color.
  repeat match goal with |- context [if ?b then _ else _] => destruct b end;
    discriminate.
Qed.

(** X16.  The picture holds at most 85 texts: the two headings of the code
    part, at most 50 lines of code, at most 30 lines of output with their
    heading, and the two notices; every line is cut to 120 characters.
    The notice "... (code truncated) ..." is drawn exactly when the code
    has more than 50 lines, and "... (output truncated) ..." exactly when
    a non-empty output has more than 30 lines. *)
Theorem screenshot_cuts_and_says_so
    (code output language problem_num : string) :
  let calls :=
    (assignment_solver.create_code_screenshot code output language problem_num).2 in
  let notice (what : string) (c : assignment_solver.text_call) :=
    assignment_solver.text c = what /\ assignment_solver.fill c = "#858585" in
  (length calls <= 85)%nat /\
  Forall (fun c => assignment_solver.bold c = false ->
                   (String.length (assignment_solver.text c) <= 120)%nat) calls /\
  ((exists c, c ∈ calls /\ notice "... (code truncated) ..." c)
   <-> (50 < length (PyStr.split_lines code))%nat) /\
  ((exists c, c ∈ calls /\ notice "... (output truncated) ..." c)
   <-> PyStr.truthy output = true /\ (30 < length (PyStr.split_lines output))%nat).
Proof.
  cbv zeta. unfold assignment_solver.create_code_screenshot.
  set (code_lines := PyStr.split_lines code).
  unfold assignment_solver.padding, assignment_solver.line_height.
  pose proof (draw_lines_spec assignment_solver.line_color (firstn 50 code_lines)
                (40 + 40 + 30)) as H3.
  destruct (assignment_solver.draw_lines assignment_solver.line_color
              (firstn 50 code_lines) (40 + 40 + 30)) as [d3 y3].
  cbn [fst snd] in H3. destruct H3 as (_ & Hl3 & HF3).
  rewrite length_firstn in Hl3.
  assert (HN3 : forall what c, c ∈ d3 ->
                  ~ (assignment_solver.text c = what /\
                     assignment_solver.fill c = "#858585")).
  { intros what c Hc [_ Hf]. rewrite Forall_forall in HF3.
    destruct (HF3 c Hc) as (_ & _ & _ & _ & _ & line & _ & Hfill).
    rewrite Hfill in Hf. exact (line_color_not_grey line Hf). }
  assert (HL3 : Forall (fun c => assignment_solver.bold c = false ->
                   (String.length (assignment_solver.text c) <= 120)%nat) d3).
  { eapply Forall_impl; [exact HF3|]. cbn. intros c H _. apply H. }
  destruct (PyStr.truthy output) eqn:Hout.
  - set (output_lines := PyStr.split_lines output).
    destruct (50 <? length code_lines)%nat eqn:Hn;
      [apply Nat.ltb_lt in Hn | apply Nat.ltb_ge in Hn].
    all: match goal with
         | |- context [assignment_solver.draw_lines ?c ?l ?y] =>
             pose proof (draw_lines_spec c l y) as H5;
             destruct (assignment_solver.draw_lines c l y) as [d52 y5];
             cbn [fst snd] in H5; destruct H5 as (_ & Hl5 & HF5)
         end.
    all: rewrite length_firstn in Hl5.
    all: assert (HN5 : forall what c, c ∈ d52 ->
                   ~ (assignment_solver.text c = what /\
                      assignment_solver.fill c = "#858585"))
           by (intros what c Hc [_ Hf]; rewrite Forall_forall in HF5;
               destruct (HF5 c Hc) as (_ & _ & _ & _ & _ & line & _ & Hfill);
               rewrite Hfill in Hf; discriminate Hf).
    all: assert (HL5 : Forall (fun c => assignment_solver.bold c = false ->
                   (String.length (assignment_solver.text c) <= 120)%nat) d52)
           by (eapply Forall_impl; [exact HF5|]; cbn; intros c H _; apply H).
    all: destruct (30 <? length output_lines)%nat eqn:Hm;
           [apply Nat.ltb_lt in Hm | apply Nat.ltb_ge in Hm].
    all: cbn [fst snd].
    all: split; [rewrite ?length_app; cbn [length]; lia|].
    all: split;
           [repeat rewrite Forall_app; repeat rewrite Forall_cons; cbn;
            repeat split; try assumption; try apply Forall_nil; try exact I;
            intros; try discriminate; lia|].
    all: split; split.
    all: try (intros _; first [assumption | split; [reflexivity | assumption]]).
    all: try (intros _;
              match goal with
              | |- exists c, _ /\ assignment_solver.text c = ?w /\ _ =>
                  first
                    [ exists (assignment_solver.TextCall (40 + 20) y3 w "#858585" false);
                      split; [|split; reflexivity];
                      apply list_elem_of_In; repeat rewrite in_app_iff; cbn; solve [auto 20]
                    | exists (assignment_solver.TextCall (40 + 20) y5 w "#858585" false);
                      split; [|split; reflexivity];
                      apply list_elem_of_In; repeat rewrite in_app_iff; cbn; solve [auto 20] ]
              end; fail).
    all: try (intros (c & Hc & Hnot); exfalso;
              repeat (apply elem_of_app in Hc as [Hc | Hc]);
              repeat (apply elem_of_cons in Hc as [-> | Hc]);
              try (apply elem_of_nil in Hc; contradiction);
              try (exact (HN3 _ _ Hc Hnot));
              try (exact (HN5 _ _ Hc Hnot));
              destruct Hnot as [Ht Hf]; cbn in Ht, Hf; discriminate).
    all: try (intros [_ Hgt]; exfalso; lia).
    all: try (intros Hgt; exfalso; lia).
  - destruct (50 <? length code_lines)%nat eqn:Hn;
      [apply Nat.ltb_lt in Hn | apply Nat.ltb_ge in Hn].
    all: cbn [fst snd].
    all: split; [rewrite ?length_app; cbn [length]; lia|].
    all: split;
           [repeat rewrite Forall_app; repeat rewrite Forall_cons; cbn;
            repeat split; try assumption; try apply Forall_nil; try exact I;
            intros; try discriminate; lia|].
    all: split; split.
    all: try (intros _; assumption).
    all: try (intros _;
              match goal with
              | |- exists c, _ /\ assignment_solver.text c = ?w /\ _ =>
                  first
                    [ exists (assignment_solver.TextCall (40 + 20) y3 w "#858585" false);
                      split; [|split; reflexivity];
                      apply list_elem_of_In; repeat rewrite in_app_iff; cbn; solve [auto 20]
                    | exists (assignment_solver.TextCall (40 + 20) y5 w "#858585" false);
                      split; [|split; reflexivity];
                      apply list_elem_of_In; repeat rewrite in_app_iff; cbn; solve [auto 20] ]
              end; fail).
    all: try (intros (c & Hc & Hnot); exfalso;
              repeat (apply elem_of_app in Hc as [Hc | Hc]);
              repeat (apply elem_of_cons in Hc as [-> | Hc]);
              try (apply elem_of_nil in Hc; contradiction);
              try (exact (HN3 _ _ Hc Hnot));
              destruct Hnot as [Ht Hf]; cbn in Ht, Hf; discriminate).
    all: try (intros [Hf _]; discriminate Hf).
    all: try (intros Hgt; exfalso; lia).
Qed.

(** ** The listing of course work *)

Lemma get_coursework_loop_walk
    (cl : Classroom) (course_id : string) (since_hours : option Z)
    (token token' : option string) (ps : list page) :
  submit_listing.since_given since_hours = false ->
  walk cl course_id token ps token' ->
  forall fuel round acc,
    submit_listing.get_coursework_loop cl (length ps + fuel) round course_id
      since_hours token acc
    = submit_listing.get_coursework_loop cl fuel (length ps + round) course_id
        since_hours token' (acc ++ concat (map items_of ps)).
Proof.
  intros Hs Hw. induction Hw as [token | token p ps token' Hp Hn Hw IH];
    intros fuel round acc.
  - cbn. rewrite app_nil_r. reflexivity.
  - cbn [length Nat.add submit_listing.get_coursework_loop].
    rewrite Hp, Hs, Hn. rewrite IH. cbn [map concat].
    rewrite <- app_assoc. fold (items_of p).
    replace (length ps + S round)%nat with (S (length ps + round))%nat by lia.
    reflexivity.
Qed.

(** X17.  Without a time window ([since_hours] absent or 0),
    [get_coursework] follows the page tokens to the first page without
    one and returns the course work of all pages, in order; as many
    rounds of the loop as there are pages are enough. *)
Theorem get_coursework_returns_all_pages
    (cl : Classroom) (course_id : string) (since_hours : option Z)
    (ps : list page) (token : option string) (last_page : page) (fuel : nat) :
  submit_listing.since_given since_hours = false ->
  walk cl course_id None ps token ->
  coursework_ans cl course_id token = inl last_page ->
  Py.falsy (nextPageToken last_page) = true ->
  (length ps < fuel)%nat ->
  submit_listing.get_coursework cl fuel course_id since_hours
  = Some (inl (concat (map items_of (ps ++ [last_page])))).
Proof.
  intros Hs Hw Hl Hn Hf. unfold submit_listing.get_coursework.
  replace fuel with (length ps + S (fuel - length ps - 1))%nat by lia.
  rewrite (get_coursework_loop_walk _ _ _ _ _ _ Hs Hw).
  cbn [submit_listing.get_coursework_loop]. rewrite Hl, Hs, Hn.
  rewrite map_app, concat_app. cbn. rewrite app_nil_r. reflexivity.
Qed.

Lemma get_coursework_returns_all_pages_witness :
  submit_listing.get_coursework (two_pages (inl (Page (Some [ {[ "id" := "3" ]} ]) None)))
    2 "course" (Some 0)
  = Some (inl [ {[ "id" := "1"; "updateTime" := "2024-05-01T10:00:00Z" ]};
                {[ "id" := "2" ]}; {[ "id" := "3" ]} ]).
Proof.
  apply (get_coursework_returns_all_pages
           (two_pages (inl (Page (Some [ {[ "id" := "3" ]} ]) None))) "course" (Some 0)
           [Page (Some [ {[ "id" := "1"; "updateTime" := "2024-05-01T10:00:00Z" ]};
                         {[ "id" := "2" ]} ]) (Some "page-2")]
           (Some "page-2") (Page (Some [ {[ "id" := "3" ]} ]) None) 2).
  - reflexivity.
  - eapply walk_step; [reflexivity | reflexivity | apply walk_done].
  - reflexivity.
  - reflexivity.
  - cbn. lia.
Defined.

Lemma get_coursework_loop_fetched
    (cl : Classroom) (course_id : string) (since_hours : option Z)
    (round n : nat) (token token' : option string) (kept : list dict) :
  fetched cl course_id since_hours round token kept n token' ->
  forall fuel acc,
    submit_listing.get_coursework_loop cl (n + fuel) round course_id
      since_hours token acc
    = submit_listing.get_coursework_loop cl fuel (n + round) course_id
        since_hours token' (acc ++ kept).
Proof.
  intros Hf.
  induction Hf as [round token | round token p items kept n token' Hp Hi Hn Hf IH];
    intros fuel acc.
  - cbn. rewrite app_nil_r. reflexivity.
  - cbn [Nat.add submit_listing.get_coursework_loop].
    rewrite Hp. unfold page_items in Hi. rewrite Hi, Hn. rewrite IH.
    rewrite <- app_assoc.
    replace (n + S round)%nat with (S (n + round))%nat by lia.
    reflexivity.
Qed.

(** X18.  An error of any page request ends the listing, with or without
    a time window: for an [HttpError], [get_coursework] returns the empty
    list, and the course work of the pages fetched before is dropped; any
    other exception reaches the caller. *)
Theorem get_coursework_error_drops_earlier_pages
    (cl : Classroom) (course_id : string) (since_hours : option Z)
    (kept : list dict) (n : nat) (token : option string) (e : exn) (fuel : nat) :
  fetched cl course_id since_hours 0 None kept n token ->
  coursework_ans cl course_id token = inr e ->
  (n < fuel)%nat ->
  submit_listing.get_coursework cl fuel course_id since_hours
  = match e with
    | HttpError _ => Some (inl [])
    | _ => Some (inr e)
    end.
Proof.
  intros Hf He Hlt. unfold submit_listing.get_coursework.
  replace fuel with (n + S (fuel - n - 1))%nat by lia.
  rewrite (get_coursework_loop_fetched _ _ _ _ _ _ _ _ Hf).
  cbn [submit_listing.get_coursework_loop]. rewrite He.
  destruct e; reflexivity.
Qed.

Lemma get_coursework_error_drops_earlier_pages_witness :
  submit_listing.get_coursework
    (two_pages (inr (HttpError "<HttpError 503 The service is currently unavailable>")))
    5 "course" (Some 168)
  = Some (inl []).
Proof.
  apply (get_coursework_error_drops_earlier_pages
           (two_pages (inr (HttpError "<HttpError 503 The service is currently unavailable>")))
           "course" (Some 168)
           ([ {[ "id" := "1"; "updateTime" := "2024-05-01T10:00:00Z" ]} ] ++ [])
           1 (Some "page-2")
           (HttpError "<HttpError 503 The service is currently unavailable>") 5).
  - apply (fetched_page _ _ _ 0%nat None
             (Page (Some [ {[ "id" := "1"; "updateTime" := "2024-05-01T10:00:00Z" ]};
                           {[ "id" := "2" ]} ]) (Some "page-2"))).
    + reflexivity.
    + vm_compute. reflexivity.
    + reflexivity.
    + apply fetched_none.
  - reflexivity.
  - lia.
Defined.

(** A work counts as dated when it has an update time that parses to a
    naive [datetime] later than [datetime.min]. *)
Lemma newer_items_dated (cl : Classroom) (cutoff : Z) (items kept : list dict) :
  0 <= cutoff ->
  submit_listing.newer_items cl cutoff items = inl kept ->
  Forall (fun w =>
            w ∈ items /\
            exists t, submit_listing._parse_timestamp cl (w !! "updateTime") = Naive t /\
                      cutoff < t)
         kept.
Proof.
  intros Hc. revert kept. induction items as [|i rest IH]; intros kept; cbn.
  - intros [= <-]. constructor.
  - destruct (submit_listing._parse_timestamp cl (i !! "updateTime")) as [t|t] eqn:Hp;
      cbn; [|discriminate].
    destruct (submit_listing.newer_items cl cutoff rest) as [rest'|e]; [|discriminate].
    specialize (IH rest' eq_refl).
    assert (IH' : Forall (fun w => w ∈ i :: rest /\
                    exists t, submit_listing._parse_timestamp cl (w !! "updateTime") = Naive t /\
                              cutoff < t) rest').
    { eapply Forall_impl; [exact IH|]. cbn. intros w [Hin Ht]. split; [|exact Ht].
      apply list_elem_of_further. exact Hin. }
    destruct (cutoff <? t) eqn:Hlt; intros [= <-]; [|exact IH'].
    constructor; [|exact IH'].
    split; [apply list_elem_of_here|]. exists t. split; [exact Hp|].
    apply Z.ltb_lt. exact Hlt.
Qed.

Lemma cutoff_of_valid (now since_hours cutoff : Z) :
  submit_listing.cutoff_of now since_hours = inl cutoff -> 0 <= cutoff.
Proof.
  unfold submit_listing.cutoff_of.
  destruct (now - since_hours * 3600 * 1000000 <? 0) eqn:Hl; cbn; [discriminate|].
  destruct (datetime_max <? now - since_hours * 3600 * 1000000); [discriminate|].
  intros [= <-]. apply Z.ltb_ge. exact Hl.
Qed.

Lemma get_coursework_loop_dated
    (cl : Classroom) (course_id : string) (since_hours : option Z) (P : dict -> Prop) :
  submit_listing.since_given since_hours = true ->
  (forall w t, submit_listing._parse_timestamp cl (w !! "updateTime") = Naive t ->
               0 < t -> P w) ->
  forall fuel round token acc l,
    Forall P acc ->
    submit_listing.get_coursework_loop cl fuel round course_id since_hours token acc
      = Some (inl l) ->
    Forall P l.
Proof.
  intros Hs HP. induction fuel as [|fuel IH]; intros round token acc l Hacc; cbn.
  - discriminate.
  - destruct (coursework_ans cl course_id token) as [response|e]; [|discriminate].
    rewrite Hs.
    destruct (submit_listing.cutoff_of (now_ans cl round) (default 0 since_hours))
      as [cutoff|e] eqn:Hc; [|discriminate].
    destruct (submit_listing.newer_items cl cutoff (default [] (courseWork response)))
      as [kept|e] eqn:Hk; [|discriminate].
    assert (Hacc' : Forall P (acc ++ kept)).
    { apply Forall_app. split; [exact Hacc|].
      pose proof (newer_items_dated cl cutoff _ _ (cutoff_of_valid _ _ _ Hc) Hk) as HF.
      eapply Forall_impl; [exact HF|]. cbn. intros w [_ (t & Ht & Hlt)].
      apply (HP w t Ht). pose proof (cutoff_of_valid _ _ _ Hc). lia. }
    destruct (Py.falsy (nextPageToken response)).
    + intros [= <-]. exact Hacc'.
    + apply IH. exact Hacc'.
Qed.

(** X19.  With a time window ([since_hours] given and not 0), every work
    that [get_coursework] returns carries an update time that parsed to
    a [datetime] later than [datetime.min]: works without the key
    ['updateTime'], with an empty one or with one that does not parse are
    never returned. *)
Theorem get_coursework_window_needs_update_time
    (cl : Classroom) (fuel : nat) (course_id : string) (since_hours : option Z)
    (l : list dict) (work : dict) :
  submit_listing.since_given since_hours = true ->
  submit_listing.get_coursework cl fuel course_id since_hours = Some (inl l) ->
  work ∈ l ->
  exists ts t,
    work !! "updateTime" = Some ts /\ ts <> "" /\
    submit_listing._parse_timestamp cl (work !! "updateTime") = Naive t /\ 0 < t.
Proof.
  intros Hs Hg Hin.
  set (P := fun w : dict =>
              exists ts t, w !! "updateTime" = Some ts /\ ts <> "" /\
                submit_listing._parse_timestamp cl (w !! "updateTime") = Naive t /\
                0 < t).
  assert (HP : forall w t,
             submit_listing._parse_timestamp cl (w !! "updateTime") = Naive t ->
             0 < t -> P w).
  { intros w t Ht Hpos. unfold P.
    destruct (w !! "updateTime") as [ts|] eqn:Hts.
    - exists ts, t. split; [reflexivity|]. split; [|auto].
      intros ->. cbn in Ht. injection Ht as <-. lia.
    - cbn in Ht. injection Ht as <-. lia. }
  assert (HF : Forall P l).
  { unfold submit_listing.get_coursework in Hg.
    destruct (submit_listing.get_coursework_loop cl fuel 0 course_id since_hours None [])
      as [[l'|e]|] eqn:Hloop.
    - injection Hg as <-.
      exact (get_coursework_loop_dated cl course_id since_hours P Hs HP
               _ _ _ _ _ (Forall_nil_2 P) Hloop).
    - destruct e; try discriminate Hg. injection Hg as <-. constructor.
    - discriminate Hg. }
  rewrite Forall_forall in HF. exact (HF work Hin).
Qed.

Lemma get_coursework_window_needs_update_time_witness :
  exists ts t,
    ({[ "id" := "1"; "updateTime" := "2024-05-01T10:00:00Z" ]} : dict) !! "updateTime"
      = Some ts /\ ts <> "" /\
    submit_listing._parse_timestamp
      (two_pages (inl (Page (Some [ {[ "id" := "3" ]} ]) None)))
      (({[ "id" := "1"; "updateTime" := "2024-05-01T10:00:00Z" ]} : dict) !! "updateTime")
      = Naive t /\ 0 < t.
Proof.
  apply (get_coursework_window_needs_update_time
           (two_pages (inl (Page (Some [ {[ "id" := "3" ]} ]) None)))
           2 "course" (Some 168)
           [ {[ "id" := "1"; "updateTime" := "2024-05-01T10:00:00Z" ]} ]).
  - reflexivity.
  - vm_compute. reflexivity.
  - apply list_elem_of_here.
Defined.

(** ** Escaping for the PDF *)

Lemma prefix_empty (s : string) : String.prefix EmptyString s = true.
Proof. destruct s; reflexivity. Qed.

Lemma prefix_char (c a : ascii) (s : string) :
  String.prefix (String c EmptyString) (String a s) = Ascii.eqb c a.
Proof.
  cbn [String.prefix]. destruct (ascii_dec c a) as [->|Hne].
  - rewrite prefix_empty. symmetry. apply Ascii.eqb_refl.
  - symmetry. apply Ascii.eqb_neq. exact Hne.
Qed.

Lemma replace_char (c : ascii) (new s : string) :
  Py.replace s (String c EmptyString) new = subst_char c new s.
Proof.
  unfold Py.replace. induction s as [|a s IH]; [reflexivity|].
  cbn [Py.replace_from subst_char]. rewrite prefix_char.
  destruct (Ascii.eqb c a); cbn [String.length Nat.sub]; rewrite IH; reflexivity.
Qed.

Lemma str_in_char (c : ascii) (s : string) :
  PyStr.str_in (String c EmptyString) s = has_char c s.
Proof.
  induction s as [|a s IH]; [reflexivity|].
  cbn [PyStr.str_in has_char]. rewrite prefix_char, IH. reflexivity.
Qed.

Lemma has_char_app (c : ascii) (a b : string) :
  has_char c (a +:+ b) = (has_char c a || has_char c b)%bool.
Proof.
  induction a as [|x a IH]; [reflexivity|].
  change (String x a +:+ b) with (String x (a +:+ b)).
  cbn [has_char]. rewrite IH. apply orb_assoc.
Qed.

Lemma subst_char_removes (c : ascii) (new s : string) :
  has_char c new = false -> has_char c (subst_char c new s) = false.
Proof.
  intros Hn. induction s as [|a s IH]; [reflexivity|].
  cbn [subst_char]. destruct (Ascii.eqb c a) eqn:Hca.
  - rewrite has_char_app, Hn, IH. reflexivity.
  - cbn [has_char]. rewrite Hca, IH. reflexivity.
Qed.

Lemma subst_char_keeps_out (d c : ascii) (new s : string) :
  has_char d new = false -> has_char d s = false ->
  has_char d (subst_char c new s) = false.
Proof.
  intros Hn. induction s as [|a s IH]; [reflexivity|].
  cbn [has_char]. intros H. apply orb_false_elim in H as [Hda Hs].
  cbn [subst_char]. destruct (Ascii.eqb c a).
  - rewrite has_char_app, Hn, (IH Hs). reflexivity.
  - cbn [has_char]. rewrite Hda, (IH Hs). reflexivity.
Qed.

Lemma subst_char_absent (c : ascii) (new s : string) :
  has_char c s = false -> subst_char c new s = s.
Proof.
  induction s as [|a s IH]; [reflexivity|].
  cbn [has_char]. intros H. apply orb_false_elim in H as [Hca Hs].
  cbn [subst_char]. rewrite Hca, (IH Hs). reflexivity.
Qed.

(** X20.  The escaping of [create_pdf_report] leaves no "<" and no ">"
    in a line, whatever the line holds, and returns a line without "&",
    "<" and ">" as it is. *)
Theorem escape_markup_no_angle_brackets (line : string) :
  PyStr.str_in "<" (escape_markup line) = false /\
  PyStr.str_in ">" (escape_markup line) = false /\
  (PyStr.str_in "&" line = false -> PyStr.str_in "<" line = false ->
   PyStr.str_in ">" line = false -> escape_markup line = line).
Proof.
  unfold escape_markup. rewrite !replace_char, !str_in_char.
  split; [|split].
  - apply subst_char_keeps_out; [reflexivity|].
    apply subst_char_removes. reflexivity.
  - apply subst_char_removes. reflexivity.
  - intros Ha Hl Hg.
    rewrite (subst_char_absent "&" _ _ Ha), (subst_char_absent "<" _ _ Hl).
    apply subst_char_absent. exact Hg.
Qed.

Lemma escape_markup_no_angle_brackets_witness :
  escape_markup "    return x + 1" = "    return x + 1" /\
  PyStr.str_in "<" (escape_markup "if (a < b && b > c) {") = false.
Proof.
  destruct (escape_markup_no_angle_brackets "    return x + 1") as (_ & _ & H).
  destruct (escape_markup_no_angle_brackets "if (a < b && b > c) {") as (H' & _).
  split; [apply H; reflexivity | exact H'].
Defined.
